(** * Smart chatbot with LLM, RAG and web search: the query router and the
      answer pipelines

    A shallow embedding of [chatbot_app.py] (classes [IntelligentRouter],
    [ChatbotManager]) and [chatbot_app_enhanced.py] (classes
    [EnhancedRouter], [EnhancedChatbotManager]), and of the handlers of
    their [main] on the Streamlit session state.

    Text is modelled by [string]: the sequence of the characters of a
    Python [str], each an 8-bit [ascii] (for text outside ASCII, the bytes
    of its UTF-8 encoding; substring and prefix tests on UTF-8 text agree
    with the tests on code points).  [lower] and [isdigit] are Python's
    [str.lower] and [str.isdigit] on ASCII text; they leave every other
    character alone, where Python lowers capitals outside ASCII (the
    Kelvin sign U+212A to k) and takes digits outside ASCII for digits.
    A statement whose truth for the code depends on them beyond ASCII
    carries the hypothesis [isascii]. *)

From Stdlib Require Import String Ascii List Bool Arith QArith Lia DecimalString.
Import ListNotations.
Open Scope string_scope.
Open Scope bool_scope.

(** ** Python's string operations *)

Module Py.

Definition lower_char (c : ascii) : ascii :=
  if ("A" <=? c)%char && (c <=? "Z")%char
  then ascii_of_nat (nat_of_ascii c + 32)
  else c.

(** [s.lower()], for ASCII text *)
Fixpoint lower (s : string) : string :=
  match s with
  | EmptyString => EmptyString
  | String c t => String (lower_char c) (lower t)
  end.

(** [c.isdigit()], for an ASCII character *)
Definition isdigit (c : ascii) : bool :=
  ("0" <=? c)%char && (c <=? "9")%char.

(** [s.startswith(p)] *)
Fixpoint startswith (s p : string) {struct p} : bool :=
  match p, s with
  | EmptyString, _ => true
  | String _ _, EmptyString => false
  | String a p', String b s' => Ascii.eqb a b && startswith s' p'
  end.

(** [s.endswith(p)] *)
Fixpoint endswith (s p : string) : bool :=
  String.eqb s p ||
  match s with
  | EmptyString => false
  | String _ t => endswith t p
  end.

(** [needle in hay] for two strings: [needle] occurs in [hay] as a
    contiguous substring. *)
Fixpoint str_in (needle hay : string) : bool :=
  startswith hay needle ||
  match hay with
  | EmptyString => false
  | String _ t => str_in needle t
  end.

(** [any(p(c) for c in s)] over the characters of a string. *)
Fixpoint any_char (p : ascii -> bool) (s : string) : bool :=
  match s with
  | EmptyString => false
  | String c t => p c || any_char p t
  end.

(** [any(k in s for k in keywords)] *)
Definition any_in (keywords : list string) (s : string) : bool :=
  existsb (fun k => str_in k s) keywords.

(** [any(s.startswith(p) for p in phrases)] *)
Definition any_startswith (phrases : list string) (s : string) : bool :=
  existsb (fun p => startswith s p) phrases.

(** [s.isascii()]: every character is below 128. *)
Definition isascii (s : string) : bool :=
  negb (any_char (fun c => 128 <=? nat_of_ascii c)%nat s).

End Py.

(** ** The routes *)

(** The strings ["llm"], ["rag"] and ["web"] the routers return. *)
Inductive RouteKind : Type := llm | rag | web.

(** The messages of [ChatMessageHistory]: [HumanMessage] and [AIMessage]
    with their [content]. *)
Inductive message : Type :=
| HumanMessage (content : string)
| AIMessage (content : string).

(** ** The keyword tests shared by both routers

    [_has_conversation_context], [_is_mathematical], [_needs_realtime_data]
    and [_references_documents] have the same body in [IntelligentRouter]
    (chatbot_app.py, lines 100-193) and in [EnhancedRouter]
    (chatbot_app_enhanced.py, lines 146-219). *)

Module Router.
Import Py.

Definition context_indicators : list string :=
  [ " it "; " its "; " that "; " this "; " these "; " those ";
    " them "; " they "; " their ";
    "the result"; "the answer"; "your response"; "you said";
    "above"; "previous"; "earlier"; "before";
    "also"; "and"; "then"; "next"; "now"; "after that";
    "add to"; "subtract from"; "multiply by"; "divide by";
    "plus"; "minus"; "times" ].

Definition _has_conversation_context (query : string)
    (chat_history : list message) : bool :=
  if Nat.eqb (List.length chat_history) 0 then false
  else
    let query_lower := lower query in
    any_in context_indicators query_lower.

Definition operators : list string := [ "+"; "-"; "*"; "/"; "="; "^" ].

Definition math_keywords : list string :=
  [ "calculate"; "compute"; "solve"; "evaluate";
    "add"; "sum"; "plus"; "addition";
    "subtract"; "minus"; "difference";
    "multiply"; "times"; "product";
    "divide"; "quotient";
    "equals"; "equal to";
    "square"; "power"; "root";
    "percentage"; "percent" ].

Definition _is_mathematical (query : string) : bool :=
  let query_lower := lower query in
  let has_operators := any_in operators query in
  let has_math_keywords := any_in math_keywords query_lower in
  let has_numbers := any_char isdigit query in
  has_operators || (has_math_keywords && has_numbers).

Definition temporal_words : list string :=
  [ "current"; "latest"; "today"; "now"; "recent";
    "this week"; "this month"; "right now"; "live" ].

Definition realtime_data_types : list string :=
  [ "price"; "rate"; "stock"; "market"; "exchange"; "crypto"; "bitcoin";
    "trading"; "value"; "worth";
    "news"; "breaking"; "update"; "happening"; "event";
    "weather"; "temperature"; "forecast"; "climate";
    "score"; "game"; "match"; "tournament";
    "traffic"; "status"; "available"; "open"; "closed" ].

Definition _needs_realtime_data (query : string) : bool :=
  let query_lower := lower query in
  let has_temporal := any_in temporal_words query_lower in
  let has_realtime_type := any_in realtime_data_types query_lower in
  has_temporal && has_realtime_type.

Definition doc_keywords : list string :=
  [ "document"; "file"; "pdf"; "text"; "paper"; "article";
    "uploaded"; "attachment";
    "in the"; "from the"; "according to";
    "what does"; "summarize"; "extract";
    "content"; "written"; "mentioned" ].

Definition _references_documents (query : string) (has_documents : bool)
    : bool :=
  if negb has_documents then false
  else
    let query_lower := lower query in
    any_in doc_keywords query_lower.

End Router.

(** ** [IntelligentRouter.route_query] (chatbot_app.py, lines 195-245) *)

Module IntelligentRouter.
Import Py Router.

Definition simple_phrases : list string :=
  [ "hello"; "hi "; "hey "; "good morning"; "good afternoon";
    "good evening"; "thanks"; "thank you"; "bye"; "goodbye";
    "how are you"; "what's up"; "sup"; "yo " ].

Definition llm_indicators : list string :=
  [ "explain"; "how does"; "why"; "what is"; "who is";
    "describe"; "tell me about"; "can you";
    "help me"; "i need"; "i want";
    "write"; "create"; "generate"; "make";
    "compare"; "difference between" ].

Definition route_query (query : string) (has_documents : bool)
    (chat_history : list message) : RouteKind :=
  let query_lower := lower query in
  (* STAGE 1 *)
  if any_startswith simple_phrases query_lower then llm
  (* STAGE 2 *)
  else if _has_conversation_context query chat_history then llm
  (* STAGE 3 *)
  else if _is_mathematical query then llm
  (* STAGE 4 *)
  else if _references_documents query has_documents then rag
  (* STAGE 5 *)
  else if _needs_realtime_data query then web
  (* STAGE 6 *)
  else if any_in llm_indicators query_lower then llm
  (* STAGE 7 *)
  else llm.

End IntelligentRouter.

(** ** [EnhancedRouter.route_query] (chatbot_app_enhanced.py, lines 221-270) *)

(** The dictionary [{"route": ..., "confidence": ..., "reason": ...}]; the
    confidence is the decimal literal of the source. *)
Record RouteDecision : Type := mkDecision {
  route : RouteKind;
  confidence : Q;
  reason : string
}.

Module EnhancedRouter.
Import Py Router.

Definition simple_phrases : list string :=
  [ "hello"; "hi "; "hey "; "good morning"; "good afternoon";
    "good evening"; "thanks"; "thank you"; "bye"; "goodbye";
    "how are you"; "what's up" ].

Definition llm_indicators : list string :=
  [ "explain"; "how does"; "why"; "what is"; "who is";
    "describe"; "tell me about"; "can you";
    "help me"; "write"; "create"; "generate";
    "compare"; "difference between" ].

(** The body of the [try]; none of its operations raises on a [str] and a
    list, so the [except] branch (route llm, confidence 0.5, reason
    Error fallback) is never taken. *)
Definition route_query (query : string) (has_documents : bool)
    (chat_history : list message) : RouteDecision :=
  let query_lower := lower query in
  if any_startswith simple_phrases query_lower
  then mkDecision llm 1.0 "Conversational"
  else if _has_conversation_context query chat_history
  then mkDecision llm 1.0 "Context reference"
  else if _is_mathematical query
  then mkDecision llm 1.0 "Mathematical"
  else if _references_documents query has_documents
  then mkDecision rag 0.95 "Document reference"
  else if _needs_realtime_data query
  then mkDecision web 0.95 "Real-time data"
  else if any_in llm_indicators query_lower
  then mkDecision llm 0.9 "General knowledge"
  else mkDecision llm 0.8 "Default".

End EnhancedRouter.

(** ** Effects: the session state, the external collaborators, exceptions *)

(** A LangChain [Document]: its text and [metadata.get("source")]. *)
Record Document : Type := mkDocument {
  page_content : string;
  source : option string
}.

(** The FAISS vector store, known by the chunks it indexes. *)
Record FAISS : Type := mkFAISS { chunks : list Document }.

(** A Streamlit uploaded file: [name] and [getvalue()]. *)
Record UploadedFile : Type := mkUploadedFile {
  name : string;
  getvalue : string
}.

Inductive Loader : Type := PyPDFLoader | TextLoader | Docx2txtLoader.

(** The outcome of a call that may raise: the value, or [str(e)] of the
    exception raised. *)
Inductive result (A : Type) : Type :=
| Ok (a : A)
| Raise (e : string).
Arguments Ok {A} a.
Arguments Raise {A} e.

(** The collaborators outside the repository: the language model
    ([llm.invoke(prompt).content]), the search tool, the retriever of a
    vector store, the document loaders, and the text splitter followed by
    [FAISS.from_documents].  Within one run each answers as a function of
    its arguments; the properties below hold for every such record.
    Writing and unlinking a temporary file are events that do not fail. *)
Record collaborators : Type := mkCollaborators {
  llm_invoke : string -> result string;
  search_run : string -> result string;
  retriever_invoke : FAISS -> string -> result (list Document);
  loader_load : Loader -> UploadedFile -> result (list Document);
  from_documents : list Document -> result FAISS
}.

(** What a run does to the world outside the session state, in order. *)
Inductive event : Type :=
| LLMInvoke (prompt : string)
| SearchRun (query : string)
| RetrieverInvoke (query : string)
| TempFileWrite (file suffix : string)
| LoaderLoad (file : string)
| Unlink (file : string)
| FromDocuments (documents : list Document)
| StWarning (msg : string)
| LogInfo (msg : string)
| LogError (msg : string).

(** [st.session_state.route_stats], a dictionary with the three keys. *)
Record route_stats_t : Type := mkStats {
  stats_llm : nat;
  stats_rag : nat;
  stats_web : nat
}.

Definition stats_incr (r : RouteKind) (s : route_stats_t) : route_stats_t :=
  match r with
  | llm => mkStats (S (stats_llm s)) (stats_rag s) (stats_web s)
  | rag => mkStats (stats_llm s) (S (stats_rag s)) (stats_web s)
  | web => mkStats (stats_llm s) (stats_rag s) (S (stats_web s))
  end.

(** [st.session_state] (the fields the managers use) and the trace of
    events. *)
Record world : Type := mkWorld {
  vectorstore : option FAISS;
  chat_history : list message;
  route_stats : route_stats_t;
  total_queries : nat;
  trace : list event
}.

(** State and exceptions: a computation maps a world to an outcome and
    the world it leaves; what it did before raising stays done. *)
Definition M (A : Type) : Type := world -> result A * world.

Definition ret {A} (a : A) : M A := fun w => (Ok a, w).

Definition bind {A B} (m : M A) (k : A -> M B) : M B :=
  fun w =>
    match m w with
    | (Ok a, w') => k a w'
    | (Raise e, w') => (Raise e, w')
    end.

Notation "x <- m ;; k" := (bind m (fun x => k))
  (at level 61, m at next level, right associativity).
Notation "m ;;; k" := (bind m (fun _ => k))
  (at level 61, right associativity).

(** [try: m  except Exception as e: handler e] *)
Definition try_except {A} (m : M A) (handler : string -> M A) : M A :=
  fun w =>
    match m w with
    | (Ok a, w') => (Ok a, w')
    | (Raise e, w') => handler e w'
    end.

(** [try: m  finally: cleanup], for a cleanup that does not raise *)
Definition try_finally {A} (m : M A) (cleanup : world -> world) : M A :=
  fun w => let (r, w') := m w in (r, cleanup w').

Definition log_event (e : event) (w : world) : world :=
  mkWorld (vectorstore w) (chat_history w) (route_stats w)
          (total_queries w) (trace w ++ [e]).

Definition emit (e : event) : M unit := fun w => (Ok tt, log_event e w).

(** A call to a collaborator: recorded, then its outcome. *)
Definition call {A} (e : event) (outcome : result A) : M A :=
  fun w => (outcome, log_event e w).

Definition get_messages : M (list message) :=
  fun w => (Ok (chat_history w), w).

Definition get_vectorstore : M (option FAISS) :=
  fun w => (Ok (vectorstore w), w).

(** [chat_history.add_user_message], [chat_history.add_ai_message] *)
Definition add_message (m : message) : M unit :=
  fun w => (Ok tt, mkWorld (vectorstore w) (chat_history w ++ [m])
                           (route_stats w) (total_queries w) (trace w)).

(** [route_stats[route] += 1] and [total_queries += 1] *)
Definition count_query (r : RouteKind) : M unit :=
  fun w => (Ok tt, mkWorld (vectorstore w) (chat_history w)
                           (stats_incr r (route_stats w))
                           (S (total_queries w)) (trace w)).

(** ** Text helpers of the managers *)

Module Text.
Import Py.

Definition nl : string := String (ascii_of_nat 10) EmptyString.
Definition dq : string := String (ascii_of_nat 34) EmptyString.

(** [str(n)] for a natural number *)
Definition str_of_nat (n : nat) : string :=
  NilEmpty.string_of_uint (Nat.to_uint n).

(** The part of [s] after the last [sep], or [s] when it has none:
    [s.split(sep)[-1]] and, for "/", [os.path.basename]. *)
Fixpoint after_last (sep : ascii) (s : string) : string :=
  match s with
  | EmptyString => EmptyString
  | String c t =>
      if any_char (Ascii.eqb sep) t then after_last sep t
      else if Ascii.eqb sep c then t
      else String c t
  end.

(** [l[-n:]] for a positive [n] *)
Definition last_n {A} (n : nat) (l : list A) : list A :=
  skipn (List.length l - n) l.

(** The context lines of [answer_with_llm]. *)
Definition render (msg : message) : string :=
  match msg with
  | HumanMessage c => "User: " ++ c
  | AIMessage c => "Assistant: " ++ c
  end.

(** The prompt of [answer_with_llm], the same text in both managers
    (chatbot_app.py, lines 310-352; chatbot_app_enhanced.py, lines
    356-397). *)
Definition llm_prompt (messages : list message) (query : string) : string :=
  let context_history := map render (last_n 12 messages) in
  match context_history with
  | _ :: _ =>
      let context_text := String.concat nl context_history in
      String.concat nl
        [ "You are an intelligent AI assistant in an ongoing conversation. Your job is to:";
          "1. Understand and use the conversation history when the user references it";
          "2. Provide accurate calculations and reasoning";
          "3. Maintain conversational flow and context awareness";
          "4. Give direct, precise answers";
          "";
          "CONVERSATION HISTORY:";
          context_text;
          "";
          "CURRENT USER QUESTION: " ++ query;
          "";
          "CRITICAL INSTRUCTIONS:";
          "- If the user uses words like " ++ dq ++ "it" ++ dq ++ ", " ++ dq
            ++ "that" ++ dq ++ ", " ++ dq ++ "this" ++ dq ++ ", " ++ dq
            ++ "the result" ++ dq
            ++ ", or refers to something from history, USE THE CONVERSATION HISTORY ABOVE";
          "- For mathematical operations, show clear step-by-step reasoning";
          "- If continuing a previous topic, acknowledge the connection";
          "- Be natural and conversational while being accurate";
          "- Answer directly without unnecessary preamble";
          "";
          "YOUR RESPONSE:" ]
  | [] =>
      String.concat nl
        [ "You are an intelligent AI assistant. Provide a clear, accurate, and helpful response to the user's question.";
          "";
          "USER QUESTION: " ++ query;
          "";
          "INSTRUCTIONS:";
          "- Be accurate and precise";
          "- For math, show your reasoning";
          "- Be conversational and friendly";
          "- Answer directly";
          "";
          "YOUR RESPONSE:" ]
  end.

(** The prompt of [answer_with_rag], the same text in both managers. *)
Definition rag_prompt (docs : list Document) (query : string) : string :=
  let context := String.concat (nl ++ nl) (map page_content docs) in
  String.concat nl
    [ "You are a helpful AI assistant. Use the following context from documents to answer the question.";
      "If the answer is not in the context, say so clearly.";
      "";
      "Context from documents:";
      context;
      "";
      "Question: " ++ query;
      "";
      "Answer based on the context above:" ].

(** [os.path.basename(doc.metadata.get("source", "Unknown"))] *)
Definition source_name (doc : Document) : string :=
  after_last "/"
    (match source doc with Some s => s | None => "Unknown" end).

(** The loop over [enumerate(docs[:3], 1)]: a line for each source not
    seen yet, numbered by the position of its document. *)
Fixpoint source_lines (indent : string) (i : nat) (seen : list string)
    (docs : list Document) : string :=
  match docs with
  | [] => ""
  | doc :: rest =>
      let source := source_name doc in
      if existsb (String.eqb source) seen
      then source_lines indent (S i) seen rest
      else indent ++ str_of_nat i ++ ". " ++ source ++ nl
           ++ source_lines indent (S i) (source :: seen) rest
  end.

End Text.

(** ** [ChatbotManager] (chatbot_app.py, lines 247-451) *)

(** The dictionary [{"answer": ..., "route": ...}] that
    [ChatbotManager.process_query] returns. *)
Record basic_result : Type := mkBasicResult {
  basic_answer : string;
  basic_route : RouteKind
}.

Module ChatbotManager.
Import Py Text.

Section Manager.
Variable ext : collaborators.

(** One turn of the loop of [process_documents]: the documents to add for
    this file.  The temporary file is written before the [try]; the
    [finally] unlinks it; there is no [except]. *)
Definition process_file (uploaded_file : UploadedFile) : M (list Document) :=
  emit (TempFileWrite (name uploaded_file)
          ("." ++ after_last "." (name uploaded_file))) ;;;
  try_finally
    (if endswith (name uploaded_file) ".pdf"
     then call (LoaderLoad (name uploaded_file))
               (loader_load ext PyPDFLoader uploaded_file)
     else if endswith (name uploaded_file) ".txt"
     then call (LoaderLoad (name uploaded_file))
               (loader_load ext TextLoader uploaded_file)
     else if endswith (name uploaded_file) ".docx"
     then call (LoaderLoad (name uploaded_file))
               (loader_load ext Docx2txtLoader uploaded_file)
     else
       emit (StWarning ("Unsupported file type: " ++ name uploaded_file)) ;;;
       ret [])
    (log_event (Unlink (name uploaded_file))).

Fixpoint process_files (uploaded_files : list UploadedFile)
    (documents : list Document) : M (list Document) :=
  match uploaded_files with
  | [] => ret documents
  | uploaded_file :: rest =>
      docs <- process_file uploaded_file ;;
      process_files rest (documents ++ docs)
  end.

Definition process_documents (uploaded_files : list UploadedFile)
    : M (option FAISS) :=
  documents <- process_files uploaded_files [] ;;
  match documents with
  | [] => ret None
  | _ :: _ =>
      vs <- call (FromDocuments documents) (from_documents ext documents) ;;
      ret (Some vs)
  end.

(** The [chat_history] argument is not read: the messages come from the
    session state.  There is no [try]. *)
Definition answer_with_llm (query : string) (chat_history : list message)
    : M string :=
  messages <- get_messages ;;
  let prompt := llm_prompt messages query in
  call (LLMInvoke prompt) (llm_invoke ext prompt).

Definition no_documents_message : string :=
  "No documents have been uploaded yet. Please upload documents to use RAG.".

Definition answer_with_rag (query : string) (vectorstore : option FAISS)
    (chat_history : list message) : M string :=
  try_except
    (match vectorstore with
     | None => ret no_documents_message
     | Some vs =>
         docs <- call (RetrieverInvoke query) (retriever_invoke ext vs query) ;;
         let prompt := rag_prompt docs query in
         answer <- call (LLMInvoke prompt) (llm_invoke ext prompt) ;;
         match docs with
         | [] => ret answer
         | _ :: _ =>
             ret (answer ++ nl ++ nl ++ "**Sources:**" ++ nl
                  ++ source_lines "" 1 [] (firstn 3 docs))
         end
     end)
    (fun e => ret ("Error accessing documents: " ++ e)).

Definition synthesis_prompt (query search_results : string) : string :=
  String.concat nl
    [ "Based on the following web search results, provide a comprehensive and accurate answer to the user's query.";
      "";
      "User Query: " ++ query;
      "";
      "Search Results:";
      search_results;
      "";
      "Instructions:";
      "- Synthesize the information into a clear, coherent answer";
      "- Include relevant facts and details";
      "- If the search results don't contain enough information, say so";
      "- Be concise but informative";
      "";
      "Answer:" ].

Definition web_error_notice (e : string) : string :=
  "Web search encountered an error: " ++ e ++ nl
  ++ "Let me try to answer from my knowledge instead." ++ nl ++ nl.

Definition answer_with_web (query : string) : M string :=
  try_except
    (search_results <- call (SearchRun query) (search_run ext query) ;;
     let prompt := synthesis_prompt query search_results in
     content <- call (LLMInvoke prompt) (llm_invoke ext prompt) ;;
     ret (content ++ nl ++ nl ++ "*Source: Web Search*"))
    (fun e =>
       messages <- get_messages ;;
       fallback <- answer_with_llm query messages ;;
       ret (web_error_notice e ++ fallback)).

Definition process_query (query : string) : M basic_result :=
  vs <- get_vectorstore ;;
  let has_documents := match vs with Some _ => true | None => false end in
  chat_history <- get_messages ;;
  let route := IntelligentRouter.route_query query has_documents chat_history in
  answer <-
    match route with
    | rag => answer_with_rag query vs chat_history
    | web => answer_with_web query
    | llm => answer_with_llm query chat_history
    end ;;
  add_message (HumanMessage query) ;;;
  add_message (AIMessage answer) ;;;
  ret (mkBasicResult answer route).

End Manager.
End ChatbotManager.

(** ** [EnhancedChatbotManager] (chatbot_app_enhanced.py, lines 272-511) *)

(** The value under "route" in the dictionary that
    [EnhancedChatbotManager.process_query] returns: a route, or "error". *)
Inductive route_label : Type :=
| Route (r : RouteKind)
| ErrorRoute.

Record query_result : Type := mkResult {
  answer : string;
  result_route : route_label;
  result_confidence : Q;
  result_reason : string
}.

Module EnhancedChatbotManager.
Import Py Text.

Section Manager.
Variable ext : collaborators.

(** One turn of the loop of [process_documents], on the lists
    [documents] and [errors]: [try], [except Exception], [finally]. *)
Definition process_file (uploaded_file : UploadedFile)
    (documents : list Document) (errors : list string)
    : M (list Document * list string) :=
  let load (loader : Loader) : M (list Document * list string) :=
    docs <- call (LoaderLoad (name uploaded_file))
                 (loader_load ext loader uploaded_file) ;;
    emit (LogInfo ("Successfully processed: " ++ name uploaded_file)) ;;;
    ret ((documents ++ docs)%list, errors) in
  try_finally
    (try_except
       (emit (TempFileWrite (name uploaded_file)
                ("." ++ after_last "." (name uploaded_file))) ;;;
        let file_ext := lower (after_last "." (name uploaded_file)) in
        if String.eqb file_ext "pdf" then load PyPDFLoader
        else if String.eqb file_ext "txt" then load TextLoader
        else if String.eqb file_ext "docx" then load Docx2txtLoader
        else
          ret (documents,
               (errors ++ [("Unsupported file type: "
                             ++ name uploaded_file)%string])%list))
       (fun e =>
          let error_msg :=
            "Error processing " ++ name uploaded_file ++ ": " ++ e in
          emit (LogError error_msg) ;;;
          ret (documents, (errors ++ [error_msg])%list)))
    (log_event (Unlink (name uploaded_file))).

Fixpoint process_files (uploaded_files : list UploadedFile)
    (documents : list Document) (errors : list string)
    : M (list Document * list string) :=
  match uploaded_files with
  | [] => ret (documents, errors)
  | uploaded_file :: rest =>
      st <- process_file uploaded_file documents errors ;;
      process_files rest (fst st) (snd st)
  end.

Definition process_documents (uploaded_files : list UploadedFile)
    : M (option FAISS) :=
  st <- process_files uploaded_files [] [] ;;
  let documents := fst st in
  let errors := snd st in
  match errors with
  | [] => ret tt
  | _ :: _ =>
      emit (StWarning ("Some files had errors:" ++ nl
                       ++ String.concat nl errors))
  end ;;;
  match documents with
  | [] => ret None
  | _ :: _ =>
      vs <- call (FromDocuments documents) (from_documents ext documents) ;;
      emit (LogInfo ("Created vector store with "
                     ++ str_of_nat (List.length (chunks vs)) ++ " chunks")) ;;;
      ret (Some vs)
  end.

Definition answer_with_llm (query : string) (chat_history : list message)
    : M string :=
  try_except
    (messages <- get_messages ;;
     let prompt := llm_prompt messages query in
     call (LLMInvoke prompt) (llm_invoke ext prompt))
    (fun e =>
       emit (LogError ("LLM error: " ++ e)) ;;;
       ret ("I apologize, but I encountered an error: " ++ e)).

Definition no_documents_message : string :=
  "No documents available. Please upload documents first.".

Definition answer_with_rag (query : string) (vectorstore : option FAISS)
    (chat_history : list message) : M string :=
  try_except
    (match vectorstore with
     | None => ret no_documents_message
     | Some vs =>
         docs <- call (RetrieverInvoke query) (retriever_invoke ext vs query) ;;
         let prompt := rag_prompt docs query in
         answer <- call (LLMInvoke prompt) (llm_invoke ext prompt) ;;
         match docs with
         | [] => ret answer
         | _ :: _ =>
             ret (answer ++ nl ++ nl ++ "📚 **Sources:**" ++ nl
                  ++ source_lines "   " 1 [] (firstn 3 docs))
         end
     end)
    (fun e =>
       emit (LogError ("RAG error: " ++ e)) ;;;
       ret ("Error accessing documents: " ++ e)).

Definition synthesis_prompt (query search_results : string) : string :=
  String.concat nl
    [ "Synthesize a comprehensive answer from these web search results.";
      "";
      "Query: " ++ query;
      "";
      "Search Results:";
      search_results;
      "";
      "Provide a clear, well-structured answer with key information:" ].

Definition web_unavailable_note : string :=
  " (Note: Web search unavailable, using general knowledge)".

Definition answer_with_web (query : string) : M string :=
  try_except
    (search_results <- call (SearchRun query) (search_run ext query) ;;
     let prompt := synthesis_prompt query search_results in
     content <- call (LLMInvoke prompt) (llm_invoke ext prompt) ;;
     ret (content ++ nl ++ nl ++ "🌐 *Information from web search*"))
    (fun e =>
       emit (LogError ("Web search error: " ++ e)) ;;;
       messages <- get_messages ;;
       answer_with_llm (query ++ web_unavailable_note) messages).

Definition process_query (query : string) : M query_result :=
  try_except
    (vs <- get_vectorstore ;;
     let has_documents := match vs with Some _ => true | None => false end in
     chat_history <- get_messages ;;
     let route_info :=
       EnhancedRouter.route_query query has_documents chat_history in
     let route := route route_info in
     answer <-
       match route with
       | rag => answer_with_rag query vs chat_history
       | web => answer_with_web query
       | llm => answer_with_llm query chat_history
       end ;;
     add_message (HumanMessage query) ;;;
     add_message (AIMessage answer) ;;;
     count_query route ;;;
     ret (mkResult answer (Route route) (confidence route_info)
                   (reason route_info)))
    (fun e =>
       emit (LogError ("Query processing error: " ++ e)) ;;;
       ret (mkResult ("An error occurred: " ++ e) ErrorRoute 0 "Error")).

End Manager.
End EnhancedChatbotManager.

(** ** Definitions used in the statements *)

(** A conversation of one exchange, for the concrete cases below. *)
Definition one_exchange : list message :=
  [ HumanMessage "What is retrieval-augmented generation?";
    AIMessage "Answering from text retrieved for the question." ].

(** The pronoun markers of stage 2. *)
Definition pronoun_markers : list string :=
  [ " it "; " its "; " that "; " this "; " these "; " those ";
    " them "; " they "; " their " ].

(** The world [w] after the events [evs]: nothing of the session state
    changes. *)
Definition extend_trace (w : world) (evs : list event) : world :=
  mkWorld (vectorstore w) (chat_history w) (route_stats w)
          (total_queries w) (trace w ++ evs).

(** The answer of the enhanced LLM pipeline for an outcome of the model. *)
Definition llm_answer (outcome : result string) : string :=
  match outcome with
  | Ok content => content
  | Raise e => "I apologize, but I encountered an error: " ++ e
  end.

Definition llm_events (prompt : string) (outcome : result string)
    : list event :=
  match outcome with
  | Ok _ => [LLMInvoke prompt]
  | Raise e => [LLMInvoke prompt; LogError ("LLM error: " ++ e)]
  end.

(** What the enhanced [process_documents] gets from one file: its
    documents, its error messages and its events. *)
Definition loader_of_extension (file_ext : string) : option Loader :=
  if String.eqb file_ext "pdf" then Some PyPDFLoader
  else if String.eqb file_ext "txt" then Some TextLoader
  else if String.eqb file_ext "docx" then Some Docx2txtLoader
  else None.

Definition file_loader (f : UploadedFile) : option Loader :=
  loader_of_extension (Py.lower (Text.after_last "." (name f))).

Definition file_documents (ext : collaborators) (f : UploadedFile)
    : list Document :=
  match file_loader f with
  | Some loader =>
      match loader_load ext loader f with
      | Ok docs => docs
      | Raise _ => []
      end
  | None => []
  end.

Definition file_errors (ext : collaborators) (f : UploadedFile)
    : list string :=
  match file_loader f with
  | Some loader =>
      match loader_load ext loader f with
      | Ok _ => []
      | Raise e => ["Error processing " ++ name f ++ ": " ++ e]
      end
  | None => ["Unsupported file type: " ++ name f]
  end.

Definition file_events (ext : collaborators) (f : UploadedFile)
    : list event :=
  TempFileWrite (name f) ("." ++ Text.after_last "." (name f)) ::
  match file_loader f with
  | Some loader =>
      match loader_load ext loader f with
      | Ok _ => [LoaderLoad (name f);
                 LogInfo ("Successfully processed: " ++ name f)]
      | Raise e => [LoaderLoad (name f);
                    LogError ("Error processing " ++ name f ++ ": " ++ e)]
      end
  | None => []
  end ++ [Unlink (name f)].

(** ** Concrete sessions and collaborators *)

(** The session state at start: no vector store, an empty conversation. *)
Definition fresh_session : world := mkWorld None [] (mkStats 0 0 0) 0 [].

(** Collaborators that work: the model answers [reply], the search tool
    finds [found], a loader returns the file's text as one document, the
    index keeps the documents as its chunks and retrieves the first
    four. *)
Definition working (reply found : string) : collaborators :=
  mkCollaborators
    (fun _ => Ok reply)
    (fun _ => Ok found)
    (fun vs _ => Ok (firstn 4 (chunks vs)))
    (fun _ f => Ok [mkDocument (getvalue f) (Some ("/tmp/" ++ name f))])
    (fun docs => Ok (mkFAISS docs)).

(** The language model raises on every call. *)
Definition llm_down (e : string) : collaborators :=
  mkCollaborators
    (fun _ => Raise e)
    (search_run (working "" "no results"))
    (retriever_invoke (working "" ""))
    (loader_load (working "" ""))
    (from_documents (working "" "")).

(** The search tool raises on every call. *)
Definition search_down (e reply : string) : collaborators :=
  mkCollaborators
    (llm_invoke (working reply ""))
    (fun _ => Raise e)
    (retriever_invoke (working "" ""))
    (loader_load (working "" ""))
    (from_documents (working "" "")).

(** The PDF loader raises on every file. *)
Definition pdf_loader_down (e : string) : collaborators :=
  mkCollaborators
    (llm_invoke (working "" ""))
    (search_run (working "" ""))
    (retriever_invoke (working "" ""))
    (fun loader f =>
       match loader with
       | PyPDFLoader => Raise e
       | _ => loader_load (working "" "") loader f
       end)
    (from_documents (working "" "")).

(** ** The pages: the handlers of [main] on the session state

    [main] is rerun by Streamlit on every interaction; each block under a
    button or under the chat input is a handler on [st.session_state].
    The handlers are modelled on the session state only: what they draw
    ([st.markdown], [st.caption], [st.success]) and the final [st.rerun]
    leave it alone.  An exception ends the run of the script and the
    session state keeps what was assigned before it. *)

(** The "role" of a displayed message. *)
Inductive role : Type := user | assistant.

(** An entry of [st.session_state.messages]: "role", "content" and, for
    an assistant entry, "route". *)
Record display_message : Type := mkDisplay {
  msg_role : role;
  msg_content : string;
  msg_route : option route_label
}.

(** [st.session_state] with the two lists only the pages use. *)
Record page_state : Type := mkPage {
  session : world;
  messages : list display_message;
  processed_files : list string
}.

(** [st.session_state.vectorstore = vs] *)
Definition set_vectorstore (vs : option FAISS) (w : world) : world :=
  mkWorld vs (chat_history w) (route_stats w) (total_queries w) (trace w).

(** [st.session_state.chat_history = ChatMessageHistory()] *)
Definition new_chat_history (w : world) : world :=
  mkWorld (vectorstore w) [] (route_stats w) (total_queries w) (trace w).

(** [route_stats = {"llm": 0, "rag": 0, "web": 0}] and
    [total_queries = 0] *)
Definition zero_stats (w : world) : world :=
  mkWorld (vectorstore w) (chat_history w) (mkStats 0 0 0) 0 (trace w).

(** The session state after [init_session_state], no key being set
    before (chatbot_app_enhanced.py, lines 119-136; chatbot_app.py, lines
    24-31). *)
Definition init_page : page_state := mkPage fresh_session [] [].

(** The blocks of [main] in chatbot_app_enhanced.py that build no
    manager, and the block Process Documents from the manager built:
    [ext] stands for the manager that [EnhancedChatbotManager(api_key)]
    returned.  The construction itself, which logs and can raise, is
    part of the handlers of [EnhancedMain] below. *)
Module EnhancedApp.

(** Lines 584-591: the button Process Documents, shown when files are
    uploaded. *)
Definition on_process_documents (ext : collaborators)
    (uploaded_files : list UploadedFile) (u : page_state)
    : result unit * page_state :=
  match uploaded_files with
  | [] => (Ok tt, u)
  | _ :: _ =>
      match EnhancedChatbotManager.process_documents ext uploaded_files
              (session u) with
      | (Ok vs, w) =>
          (Ok tt, mkPage (set_vectorstore vs w) (messages u)
                         (map name uploaded_files))
      | (Raise e, w) => (Raise e, mkPage w (messages u) (processed_files u))
      end
  end.

(** Lines 603-606: the button Clear Chat. *)
Definition on_clear_chat (u : page_state) : result unit * page_state :=
  (Ok tt, mkPage (new_chat_history (session u)) [] (processed_files u)).

(** Lines 608-611: the button Reset Stats. *)
Definition on_reset_stats (u : page_state) : result unit * page_state :=
  (Ok tt, mkPage (zero_stats (session u)) (messages u) (processed_files u)).

End EnhancedApp.

(** The handlers of [main] in chatbot_app.py, from the manager built:
    [ext] stands for the manager that [ChatbotManager(api_key)]
    returned. *)
Module BasicApp.

(** Lines 485-491: the button Process Documents, shown when files are
    uploaded. *)
Definition on_process_documents (ext : collaborators)
    (uploaded_files : list UploadedFile) (u : page_state)
    : result unit * page_state :=
  match uploaded_files with
  | [] => (Ok tt, u)
  | _ :: _ =>
      match ChatbotManager.process_documents ext uploaded_files
              (session u) with
      | (Ok vs, w) =>
          (Ok tt, mkPage (set_vectorstore vs w) (messages u)
                         (map name uploaded_files))
      | (Raise e, w) => (Raise e, mkPage w (messages u) (processed_files u))
      end
  end.

(** Lines 499-502: the button Clear Chat History. *)
Definition on_clear_chat (u : page_state) : result unit * page_state :=
  (Ok tt, mkPage (new_chat_history (session u)) [] (processed_files u)).

(** Lines 537-565: the chat input, for a prompt that is not empty. *)
Definition on_chat_input (ext : collaborators) (prompt : string)
    (u : page_state) : result unit * page_state :=
  if String.eqb prompt "" then (Ok tt, u)
  else
    let shown := (messages u ++ [mkDisplay user prompt None])%list in
    match ChatbotManager.process_query ext prompt (session u) with
    | (Ok result, w) =>
        (Ok tt,
         mkPage w
           (shown ++ [mkDisplay assistant (basic_answer result)
                                (Some (Route (basic_route result)))])%list
           (processed_files u))
    | (Raise e, w) => (Raise e, mkPage w shown (processed_files u))
    end.

Inductive action : Type :=
| ProcessDocuments (ext : collaborators) (uploaded_files : list UploadedFile)
| ClearChat
| ChatInput (ext : collaborators) (prompt : string).

Definition handle (a : action) (u : page_state) : result unit * page_state :=
  match a with
  | ProcessDocuments ext uploaded_files =>
      on_process_documents ext uploaded_files u
  | ClearChat => on_clear_chat u
  | ChatInput ext prompt => on_chat_input ext prompt u
  end.

Definition run (actions : list action) (u : page_state) : page_state :=
  fold_left (fun u a => snd (handle a u)) actions u.

End BasicApp.

(** ** The enhanced page with the construction of its manager

    Two blocks of [main] in chatbot_app_enhanced.py build a manager,
    [EnhancedChatbotManager(api_key)], before they call it: Process
    Documents and the chat input.  Here the construction, which logs
    and can raise, is part of the handler. *)

(** How the construction of a manager ends: every client is built; or
    one raises before the router has logged (ChatGroq,
    HuggingFaceEmbeddings, the search tool of the router); or the search
    tool of the manager raises, after the router has logged. *)
Inductive construction : Type :=
| Built (ext : collaborators)
| RaisesBeforeRouterLog (e : string)
| RaisesAfterRouterLog (e : string).

(** [raise] an exception whose text is [e]. *)
Definition raise {A} (e : string) : M A := fun w => (Raise e, w).

Module EnhancedMain.

(** [EnhancedChatbotManager.__init__] (lines 275-292) with
    [EnhancedRouter.__init__] (lines 141-144) inside it: the [except]
    logs the error and raises it again. *)
Definition __init__ (c : construction) : M collaborators :=
  try_except
    (match c with
     | Built ext =>
         emit (LogInfo "Enhanced router initialized") ;;;
         emit (LogInfo "Chatbot manager initialized successfully") ;;;
         ret ext
     | RaisesBeforeRouterLog e => raise e
     | RaisesAfterRouterLog e =>
         emit (LogInfo "Enhanced router initialized") ;;;
         raise e
     end)
    (fun e =>
       emit (LogError ("Initialization error: " ++ e)) ;;;
       raise e).

(** Lines 584-591: the button Process Documents, shown when files are
    uploaded. *)
Definition on_process_documents (c : construction)
    (uploaded_files : list UploadedFile) (u : page_state)
    : result unit * page_state :=
  match uploaded_files with
  | [] => (Ok tt, u)
  | _ :: _ =>
      match __init__ c (session u) with
      | (Raise e, w) => (Raise e, mkPage w (messages u) (processed_files u))
      | (Ok chatbot, w) =>
          match EnhancedChatbotManager.process_documents chatbot
                  uploaded_files w with
          | (Ok vs, w') =>
              (Ok tt, mkPage (set_vectorstore vs w') (messages u)
                             (map name uploaded_files))
          | (Raise e, w') =>
              (Raise e, mkPage w' (messages u) (processed_files u))
          end
      end
  end.

(** Lines 631-651: the chat input, for a prompt that is not empty: the
    user's message is put on the page, then the manager is built, then
    the query processed and the answer put on the page. *)
Definition on_chat_input (c : construction) (prompt : string)
    (u : page_state) : result unit * page_state :=
  if String.eqb prompt "" then (Ok tt, u)
  else
    let shown := (messages u ++ [mkDisplay user prompt None])%list in
    match __init__ c (session u) with
    | (Raise e, w) => (Raise e, mkPage w shown (processed_files u))
    | (Ok chatbot, w) =>
        match EnhancedChatbotManager.process_query chatbot prompt w with
        | (Ok result, w') =>
            (Ok tt,
             mkPage w'
               (shown ++ [mkDisplay assistant (answer result)
                                    (Some (result_route result))])%list
               (processed_files u))
        | (Raise e, w') => (Raise e, mkPage w' shown (processed_files u))
        end
    end.

(** What the user does on the page, with how the construction of the
    manager ends in the two blocks that build one. *)
Inductive action : Type :=
| ProcessDocuments (c : construction) (uploaded_files : list UploadedFile)
| ClearChat
| ResetStats
| ChatInput (c : construction) (prompt : string).

Definition handle (a : action) (u : page_state) : result unit * page_state :=
  match a with
  | ProcessDocuments c uploaded_files =>
      on_process_documents c uploaded_files u
  | ClearChat => EnhancedApp.on_clear_chat u
  | ResetStats => EnhancedApp.on_reset_stats u
  | ChatInput c prompt => on_chat_input c prompt u
  end.

Definition run (actions : list action) (u : page_state) : page_state :=
  fold_left (fun u a => snd (handle a u)) actions u.


End EnhancedMain.



(** ** Definitions used in the further properties *)

(** A conversation made of whole exchanges: a user turn, then the
    assistant's. *)
Fixpoint whole_exchanges (l : list message) : bool :=
  match l with
  | [] => true
  | HumanMessage _ :: AIMessage _ :: rest => whole_exchanges rest
  | _ => false
  end.



(** The temporary files written and not unlinked yet, latest first,
    after the events [evs]. *)
Fixpoint open_temp_files (evs : list event) (open : list string)
    : list string :=
  match evs with
  | [] => open
  | TempFileWrite file _ :: rest => open_temp_files rest (file :: open)
  | Unlink file :: rest =>
      open_temp_files rest
        (match open with
         | top :: below => if String.eqb top file then below else open
         | [] => []
         end)
  | _ :: rest => open_temp_files rest open
  end.

(** The loader the basic manager picks for a file name. *)
Definition basic_file_loader (f : UploadedFile) : option Loader :=
  if Py.endswith (name f) ".pdf" then Some PyPDFLoader
  else if Py.endswith (name f) ".txt" then Some TextLoader
  else if Py.endswith (name f) ".docx" then Some Docx2txtLoader
  else None.

(** The basic manager reads the file without an exception: its name is
    not supported, or its loader returns. *)
Definition basic_file_ok (ext : collaborators) (f : UploadedFile) : bool :=
  match basic_file_loader f with
  | Some loader =>
      match loader_load ext loader f with
      | Ok _ => true
      | Raise _ => false
      end
  | None => true
  end.

(** The three supported extensions and the loader of each. *)
Definition extension_loaders : list (string * Loader) :=
  [ ("pdf", PyPDFLoader); ("txt", TextLoader); ("docx", Docx2txtLoader) ].

(** The model fails on a synthesis prompt and answers any other. *)
Definition synthesis_down (e reply : string) : collaborators :=
  mkCollaborators
    (fun prompt =>
       if Py.startswith prompt "Synthesize" then Raise e else Ok reply)
    (search_run (working "" "Acme closed at 12."))
    (retriever_invoke (working "" ""))
    (loader_load (working "" ""))
    (from_documents (working "" "")).

(** Six exchanges: twelve messages. *)
Definition six_exchanges : list message :=
  concat (repeat one_exchange 6).



(** Events that leave the set of open temporary files as it was. *)
Definition balanced (evs : list event) : Prop :=
  forall open, open_temp_files evs open = open.


(** What the basic page keeps. *)
Definition basic_page_kept (u : page_state) : Prop :=
  whole_exchanges (chat_history (session u)) = true /\
  (List.length (chat_history (session u)) <= List.length (messages u))%nat.

(** The warning of the enhanced [process_documents] for the error
    messages of a batch: none when there is no message. *)
Definition batch_warning (errors : list string) : list event :=
  match errors with
  | [] => []
  | _ :: _ =>
      [StWarning ("Some files had errors:" ++ Text.nl
                  ++ String.concat Text.nl errors)]
  end.

(** Collaborators whose language model answers with the prompt it is
    given. *)
Definition echoing : collaborators :=
  mkCollaborators
    (fun prompt => Ok prompt)
    (search_run (working "" ""))
    (retriever_invoke (working "" ""))
    (loader_load (working "" ""))
    (from_documents (working "" "")).



(** The test cases of [demonstrate_routing] (test_routing.py, lines
    15-34): the query and the route expected for it. *)
Definition test_cases : list (string * RouteKind) :=
  [ ("Hello, how are you?", llm);
    ("Explain quantum computing", llm);
    ("Write a poem about AI", llm);
    ("What is 2 + 2?", llm);
    ("What does the document say about climate change?", rag);
    ("Summarize the uploaded PDF", rag);
    ("According to the file, what is the conclusion?", rag);
    ("What are the key points in the text?", rag);
    ("What's the latest news about AI?", web);
    ("What's the weather today?", web);
    ("Current stock price of Tesla", web);
    ("Who won the 2024 election?", web);
    ("What happened in the news today?", web) ].

(** * Properties *)

(** ** Facts about the string operations *)

Module PyFacts.
Import Py.

Lemma startswith_spec (s p : string) :
  startswith s p = true <-> exists r, s = p ++ r.
Proof.
  revert s; induction p as [|a p IH]; intros s; simpl.
  - split; [intros _; now exists s | reflexivity].
  - destruct s as [|b s].
    + split; [discriminate | intros [r Hr]; discriminate].
    + rewrite andb_true_iff, IH. split.
      * intros [Hab [r ->]]. apply Ascii.eqb_eq in Hab. subst b. now exists r.
      * intros [r Hr]. injection Hr as -> ->.
        split; [apply Ascii.eqb_refl | now exists r].
Qed.

Lemma str_in_spec (needle hay : string) :
  str_in needle hay = true <-> exists a b, hay = a ++ needle ++ b.
Proof.
  induction hay as [|c hay IH]; simpl.
  - rewrite orb_false_r, startswith_spec. split.
    + intros [r Hr]. now exists "", r.
    + intros [a [b Hab]]. destruct a; [now exists b | discriminate].
  - rewrite orb_true_iff, startswith_spec, IH. split.
    + intros [[r Hr] | [a [b Hab]]].
      * now exists "", r.
      * exists (String c a), b. simpl. now rewrite Hab.
    + intros [a [b Hab]]. destruct a as [|x a]; simpl in Hab.
      * left. now exists b.
      * right. injection Hab as _ ->. now exists a, b.
Qed.

Lemma str_app_assoc (a b c : string) : (a ++ b) ++ c = a ++ b ++ c.
Proof. induction a as [|x a IH]; simpl; [reflexivity | now rewrite IH]. Qed.

Lemma lower_app (a b : string) : lower (a ++ b) = lower a ++ lower b.
Proof. induction a as [|c a IH]; simpl; [reflexivity | now rewrite IH]. Qed.

Lemma str_in_lower (w a b : string) :
  str_in (lower w) (lower (a ++ w ++ b)) = true.
Proof.
  apply str_in_spec. exists (lower a), (lower b).
  now rewrite !lower_app.
Qed.

Lemma any_in_spec (keywords : list string) (s : string) :
  any_in keywords s = true <->
  exists k, In k keywords /\ str_in k s = true.
Proof. unfold any_in. apply existsb_exists. Qed.

Lemma any_in_intro (keywords : list string) (k s : string) :
  In k keywords -> str_in k s = true -> any_in keywords s = true.
Proof. intros Hk Hs. apply any_in_spec. now exists k. Qed.

(** A needle whose last character does not occur in [s] cannot begin in
    [p] and end in [s]. *)
Lemma startswith_app_absent (c : ascii) (m : string) :
  forall s p : string,
    any_char (Ascii.eqb c) s = false ->
    startswith (p ++ s) (m ++ String c "") = startswith p (m ++ String c "").
Proof.
  induction m as [|a m IH]; intros s p Hs.
  - destruct p as [|b p]; [|reflexivity].
    destruct s as [|b s]; [reflexivity|].
    simpl in Hs |- *. apply orb_false_iff in Hs as [-> _]. reflexivity.
  - destruct p as [|b p]; cbn [append startswith].
    + destruct s as [|b s]; [reflexivity|].
      simpl in Hs. apply orb_false_iff in Hs as [_ Hs].
      pose proof (IH s "" Hs) as E. cbn [append] in E. rewrite E.
      destruct m; simpl; apply andb_false_r.
    + now rewrite IH.
Qed.

Lemma str_in_absent (c : ascii) (m t : string) :
  any_char (Ascii.eqb c) t = false -> str_in (m ++ String c "") t = false.
Proof.
  induction t as [|x t IH]; intros Ht.
  - simpl. destruct m; reflexivity.
  - pose proof (startswith_app_absent c m (String x t) "" Ht) as E.
    cbn [append] in E.
    simpl in Ht. apply orb_false_iff in Ht as [_ Ht].
    cbn [str_in]. rewrite (IH Ht), orb_false_r, E.
    destruct m; reflexivity.
Qed.

(** Appending such an [s] to the text adds no occurrence of the needle. *)
Lemma str_in_app_absent (c : ascii) (s m p : string) :
  any_char (Ascii.eqb c) s = false ->
  str_in (m ++ String c "") (p ++ s) = str_in (m ++ String c "") p.
Proof.
  intros Hs. induction p as [|b p IH].
  - cbn [append]. rewrite (str_in_absent c m s Hs).
    symmetry. now apply str_in_absent.
  - change (String b p ++ s) with (String b (p ++ s)).
    cbn [str_in]. rewrite IH.
    change (String b (p ++ s)) with (String b p ++ s).
    now rewrite startswith_app_absent.
Qed.

(** A lowercased text starts with [p] when the text splits into a
    part whose lowercased form is [p] and a rest. *)
Lemma startswith_lower_split (p : string) :
  forall q, startswith (lower q) p = true ->
            exists g r, q = g ++ r /\ lower g = p.
Proof.
  induction p as [|a p IH]; intros q H.
  - exists "", q. split; reflexivity.
  - destruct q as [|b q]; simpl in H; [discriminate|].
    apply andb_true_iff in H as [Hab H]. apply Ascii.eqb_eq in Hab.
    destruct (IH q H) as [g [r [Hq Hg]]].
    exists (String b g), r. split.
    + simpl. now rewrite <- Hq.
    + simpl. now rewrite Hg, Hab.
Qed.

End PyFacts.

(** ** The routers, stage by stage *)

Module RouterFacts.
Import Py Router PyFacts.

(** Case analysis on the tests of [route_query], in the order the source
    makes them. *)
Ltac stages :=
  unfold IntelligentRouter.route_query, EnhancedRouter.route_query;
  cbv zeta;
  repeat match goal with
         | |- context [if ?b then _ else _] => destruct b eqn:?
         end.

Lemma context_of_marker (query marker : string) (chat_history : list message) :
  chat_history <> [] ->
  In marker context_indicators ->
  str_in marker (lower query) = true ->
  _has_conversation_context query chat_history = true.
Proof.
  intros Hh Hm Hin. unfold _has_conversation_context.
  destruct chat_history as [|m0 rest]; [contradiction|].
  simpl Nat.eqb. cbv iota. now apply any_in_intro with marker.
Qed.

Lemma context_spec (query : string) (chat_history : list message) :
  _has_conversation_context query chat_history = true <->
  chat_history <> [] /\
  exists marker, In marker context_indicators /\
                 exists a b, lower query = a ++ marker ++ b.
Proof.
  split.
  - unfold _has_conversation_context.
    destruct chat_history as [|m0 rest]; simpl Nat.eqb; cbv iota zeta;
      [discriminate|].
    intros H. split; [discriminate|].
    apply any_in_spec in H as [k [Hk Hs]]. exists k. split; [exact Hk|].
    now apply str_in_spec.
  - intros [Hh [marker [Hm Hab]]].
    apply context_of_marker with marker; try assumption.
    now apply str_in_spec.
Qed.

Lemma mathematical_of_operator (query op : string) :
  In op operators -> str_in op query = true -> _is_mathematical query = true.
Proof.
  intros Hop Hin. unfold _is_mathematical. cbv zeta.
  now rewrite (any_in_intro operators op query Hop Hin).
Qed.

Lemma basic_llm_by_stage3 (query : string) (has_documents : bool)
    (chat_history : list message) :
  _has_conversation_context query chat_history = true \/
  _is_mathematical query = true ->
  IntelligentRouter.route_query query has_documents chat_history = llm.
Proof. intros [H | H]; stages; congruence. Qed.

Lemma enhanced_llm_by_stage3 (query : string) (has_documents : bool)
    (chat_history : list message) :
  _has_conversation_context query chat_history = true \/
  _is_mathematical query = true ->
  In (EnhancedRouter.route_query query has_documents chat_history)
     [ mkDecision llm 1.0 "Conversational";
       mkDecision llm 1.0 "Context reference";
       mkDecision llm 1.0 "Mathematical" ].
Proof. intros [H | H]; stages; simpl; try congruence; tauto. Qed.

Lemma basic_rag_inv (query : string) (has_documents : bool)
    (chat_history : list message) :
  IntelligentRouter.route_query query has_documents chat_history = rag ->
  _references_documents query has_documents = true.
Proof. stages; congruence. Qed.

Lemma enhanced_rag_inv (query : string) (has_documents : bool)
    (chat_history : list message) :
  route (EnhancedRouter.route_query query has_documents chat_history) = rag ->
  _references_documents query has_documents = true.
Proof. stages; simpl; congruence. Qed.

Lemma basic_web_inv (query : string) (has_documents : bool)
    (chat_history : list message) :
  IntelligentRouter.route_query query has_documents chat_history = web ->
  _needs_realtime_data query = true.
Proof. stages; congruence. Qed.

Lemma enhanced_web_inv (query : string) (has_documents : bool)
    (chat_history : list message) :
  route (EnhancedRouter.route_query query has_documents chat_history) = web ->
  _needs_realtime_data query = true.
Proof. stages; simpl; congruence. Qed.

Lemma references_documents_inv (query : string) (has_documents : bool) :
  _references_documents query has_documents = true ->
  has_documents = true /\ any_in doc_keywords (lower query) = true.
Proof.
  unfold _references_documents. destruct has_documents; simpl negb; cbv iota zeta.
  - now split.
  - discriminate.
Qed.

Lemma needs_realtime_data_inv (query : string) :
  _needs_realtime_data query = true ->
  any_in temporal_words (lower query) = true /\
  any_in realtime_data_types (lower query) = true.
Proof. unfold _needs_realtime_data. cbv zeta. apply andb_true_iff. Qed.

End RouterFacts.

(** ** Claims about the classifier *)

(** C1, as amended.  With a non-empty conversation, a query whose
    lowercased text contains one of the continuation markers of stage 2
    as a literal substring (the pronoun markers with the spaces around
    them) is routed to llm by both routers, whatever [has_documents] is
    and whatever else the query contains: only stage 1 and stage 2 can
    decide it, and both return llm (the enhanced router with confidence
    1.0). *)
Theorem continuation_marker_routes_to_llm :
  forall (query : string) (has_documents : bool)
         (chat_history : list message) (marker : string),
    chat_history <> [] ->
    In marker Router.context_indicators ->
    Py.str_in marker (Py.lower query) = true ->
    IntelligentRouter.route_query query has_documents chat_history = llm /\
    (EnhancedRouter.route_query query has_documents chat_history
       = mkDecision llm 1.0 "Conversational" \/
     EnhancedRouter.route_query query has_documents chat_history
       = mkDecision llm 1.0 "Context reference").
Proof.
  intros query has_documents chat_history marker Hh Hm Hin.
  pose proof (RouterFacts.context_of_marker query marker chat_history Hh Hm Hin)
    as Hctx.
  split.
  - apply RouterFacts.basic_llm_by_stage3. now left.
  - RouterFacts.stages; try congruence; tauto.
Qed.

Lemma continuation_marker_witness :
  IntelligentRouter.route_query
    "According to the document, what about that one?" true one_exchange = llm /\
  (EnhancedRouter.route_query
     "According to the document, what about that one?" true one_exchange
     = mkDecision llm 1.0 "Conversational" \/
   EnhancedRouter.route_query
     "According to the document, what about that one?" true one_exchange
     = mkDecision llm 1.0 "Context reference").
Proof.
  apply (continuation_marker_routes_to_llm
           "According to the document, what about that one?" true
           one_exchange " that ").
  - discriminate.
  - simpl. tauto.
  - reflexivity.
Defined.

(** Stage 2 is what keeps that query from stage 4: with no conversation
    yet, the same query goes to rag. *)
Example document_query_without_history :
  IntelligentRouter.route_query
    "According to the document, what about that one?" true [] = rag /\
  EnhancedRouter.route_query
    "According to the document, what about that one?" true []
    = mkDecision rag 0.95 "Document reference".
Proof. split; reflexivity. Qed.

(** C1, as the spec states it, fails: the query of its example, what
    about it?, holds no marker of stage 2 (the pronoun is not followed by
    a space), so with documents present, a conversation under way and a
    document keyword in the query, stage 4 decides and the route is rag. *)
Lemma continuation_example_routed_to_rag :
  one_exchange <> [] /\
  Py.str_in "what about it?"
    (Py.lower "According to the document, what about it?") = true /\
  Router._has_conversation_context
    "According to the document, what about it?" one_exchange = false /\
  IntelligentRouter.route_query
    "According to the document, what about it?" true one_exchange = rag /\
  EnhancedRouter.route_query
    "According to the document, what about it?" true one_exchange
    = mkDecision rag 0.95 "Document reference".
Proof. repeat split; try reflexivity. discriminate. Qed.

(** C3. Both routers return web only for a query whose lowercased text
    contains a temporal word and a real-time data type; a query that
    lacks one of the two families is never routed to web.  The word
    current alone falls through to the default: llm.  Stated for ASCII
    queries, where [Py.lower] is [str.lower]. *)
Theorem web_requires_temporal_and_data_type :
  forall (query : string) (has_documents : bool)
         (chat_history : list message),
    Py.isascii query = true ->
    let has_temporal := Py.any_in Router.temporal_words (Py.lower query) in
    let has_realtime_type :=
      Py.any_in Router.realtime_data_types (Py.lower query) in
    (IntelligentRouter.route_query query has_documents chat_history = web ->
     has_temporal = true /\ has_realtime_type = true) /\
    (route (EnhancedRouter.route_query query has_documents chat_history) = web ->
     has_temporal = true /\ has_realtime_type = true) /\
    (has_temporal = false \/ has_realtime_type = false ->
     IntelligentRouter.route_query query has_documents chat_history <> web /\
     route (EnhancedRouter.route_query query has_documents chat_history)
       <> web) /\
    IntelligentRouter.route_query "current" has_documents chat_history = llm /\
    EnhancedRouter.route_query "current" has_documents chat_history
      = mkDecision llm 0.8 "Default".
Proof.
  intros query has_documents chat_history _ has_temporal has_realtime_type.
  assert (Hb : IntelligentRouter.route_query query has_documents chat_history
               = web -> has_temporal = true /\ has_realtime_type = true).
  { intros H. apply RouterFacts.needs_realtime_data_inv.
    now apply RouterFacts.basic_web_inv in H. }
  assert (He : route (EnhancedRouter.route_query query has_documents
                        chat_history) = web ->
               has_temporal = true /\ has_realtime_type = true).
  { intros H. apply RouterFacts.needs_realtime_data_inv.
    now apply RouterFacts.enhanced_web_inv in H. }
  split; [exact Hb|]. split; [exact He|]. split; [|split].
  - intros Hmiss. split; intros Hw.
    + destruct (Hb Hw) as [Ht Hd]. destruct Hmiss; congruence.
    + destruct (He Hw) as [Ht Hd]. destruct Hmiss; congruence.
  - destruct has_documents, chat_history; reflexivity.
  - destruct has_documents, chat_history; reflexivity.
Qed.

Lemma web_requires_witness :
  (Py.any_in Router.temporal_words
     (Py.lower "What's the current stock price of Acme Corp?") = true /\
   Py.any_in Router.realtime_data_types
     (Py.lower "What's the current stock price of Acme Corp?") = true) /\
  IntelligentRouter.route_query "What is the current time?" true one_exchange
  <> web /\
  route (EnhancedRouter.route_query "What is the current time?" true
           one_exchange) <> web.
Proof.
  split.
  - apply (web_requires_temporal_and_data_type
             "What's the current stock price of Acme Corp?" false []
             eq_refl).
    reflexivity.
  - apply (web_requires_temporal_and_data_type
             "What is the current time?" true one_exchange eq_refl).
    right. reflexivity.
Defined.

(** C4. Both routers return rag only when [has_documents] is true and
    the lowercased query contains a document keyword; with
    [has_documents] false the route is never rag, whatever the query. *)
Theorem rag_requires_documents_and_keyword :
  forall (query : string) (has_documents : bool)
         (chat_history : list message),
    (IntelligentRouter.route_query query has_documents chat_history = rag ->
     has_documents = true /\
     Py.any_in Router.doc_keywords (Py.lower query) = true) /\
    (route (EnhancedRouter.route_query query has_documents chat_history) = rag ->
     has_documents = true /\
     Py.any_in Router.doc_keywords (Py.lower query) = true) /\
    IntelligentRouter.route_query query false chat_history <> rag /\
    route (EnhancedRouter.route_query query false chat_history) <> rag.
Proof.
  intros query has_documents chat_history.
  assert (Hb : forall hd,
             IntelligentRouter.route_query query hd chat_history = rag ->
             hd = true /\ Py.any_in Router.doc_keywords (Py.lower query) = true).
  { intros hd H. apply RouterFacts.references_documents_inv.
    now apply RouterFacts.basic_rag_inv in H. }
  assert (He : forall hd,
             route (EnhancedRouter.route_query query hd chat_history) = rag ->
             hd = true /\ Py.any_in Router.doc_keywords (Py.lower query) = true).
  { intros hd H. apply RouterFacts.references_documents_inv.
    now apply RouterFacts.enhanced_rag_inv in H. }
  split; [exact (Hb has_documents)|].
  split; [exact (He has_documents)|]. split.
  - intros H. now destruct (Hb false H).
  - intros H. now destruct (He false H).
Qed.

Lemma rag_requires_witness :
  true = true /\
  Py.any_in Router.doc_keywords
    (Py.lower "According to the document, what is the conclusion?") = true.
Proof.
  apply (rag_requires_documents_and_keyword
           "According to the document, what is the conclusion?" true []).
  reflexivity.
Defined.

(** With no documents the query of that scenario is not sent to rag:
    stage 6 answers llm. *)
Example document_keyword_without_documents :
  IntelligentRouter.route_query
    "According to the document, what is the conclusion?" false [] = llm /\
  EnhancedRouter.route_query
    "According to the document, what is the conclusion?" false []
    = mkDecision llm 0.9 "General knowledge".
Proof. split; reflexivity. Qed.

(** C5. A query that contains one of the operator characters
    + - * / = ^ is routed to llm by both routers, whatever the
    conversation and [has_documents] are, and whatever else the query
    contains: stage 3 fires unless stage 1 or stage 2 did, and all three
    return llm (the enhanced router with confidence 1.0). *)
Theorem operator_routes_to_llm :
  forall (query : string) (has_documents : bool)
         (chat_history : list message) (op : string),
    In op Router.operators ->
    Py.str_in op query = true ->
    IntelligentRouter.route_query query has_documents chat_history = llm /\
    In (EnhancedRouter.route_query query has_documents chat_history)
       [ mkDecision llm 1.0 "Conversational";
         mkDecision llm 1.0 "Context reference";
         mkDecision llm 1.0 "Mathematical" ].
Proof.
  intros query has_documents chat_history op Hop Hin.
  pose proof (RouterFacts.mathematical_of_operator query op Hop Hin) as Hm.
  split.
  - apply RouterFacts.basic_llm_by_stage3. now right.
  - apply RouterFacts.enhanced_llm_by_stage3. now right.
Qed.

Lemma operator_routes_witness :
  IntelligentRouter.route_query
    "What is the latest price of 2+2 shares?" true [] = llm /\
  In (EnhancedRouter.route_query
        "What is the latest price of 2+2 shares?" true [])
     [ mkDecision llm 1.0 "Conversational";
       mkDecision llm 1.0 "Context reference";
       mkDecision llm 1.0 "Mathematical" ].
Proof.
  apply (operator_routes_to_llm
           "What is the latest price of 2+2 shares?" true [] "+").
  - simpl. tauto.
  - reflexivity.
Defined.

(** Without the operator the same words ask for real-time data: stage 5
    sends them to web. *)
Example latest_price_without_operator :
  IntelligentRouter.route_query
    "What is the latest price of shares?" false [] = web /\
  EnhancedRouter.route_query "What is the latest price of shares?" false []
    = mkDecision web 0.95 "Real-time data".
Proof. split; reflexivity. Qed.

Lemma pronoun_markers_are_indicators :
  forall m, In m pronoun_markers -> In m Router.context_indicators.
Proof. intros m H. simpl in H. simpl. tauto. Qed.

Lemma pronoun_marker_ends_with_space :
  forall m, In m pronoun_markers -> exists m', m = m' ++ " ".
Proof.
  intros m H. simpl in H.
  repeat (destruct H as [<- | H];
          [ match goal with
            | |- exists m', ?s = _ =>
                exists (substring 0 (String.length s - 1) s); reflexivity
            end | ]).
  contradiction.
Qed.

(** C10. Stage 2 tests its markers as plain substrings of the lowercased
    query.  (1) [_has_conversation_context] holds exactly when the
    conversation is not empty and some marker occurs in the lowercased
    query.  (2) With a non-empty conversation, a query that contains the
    letters a, n, d in a row, in any case and anywhere, is routed to llm
    by both routers; so a query with understand in it goes to llm where
    the same query without conversation goes to rag, and one with Random
    goes to llm instead of web.  (3) The pronoun markers include the
    spaces around the pronoun: a final it or it? adds no occurrence of a
    pronoun marker to a query, and what about it? matches no marker at
    all. *)
Theorem continuation_markers_are_substrings :
  (forall query chat_history,
      Router._has_conversation_context query chat_history = true <->
      chat_history <> [] /\
      exists marker, In marker Router.context_indicators /\
                     exists a b, Py.lower query = a ++ marker ++ b) /\
  (forall before word after has_documents chat_history,
      chat_history <> [] ->
      Py.lower word = "and" ->
      let query := before ++ word ++ after in
      IntelligentRouter.route_query query has_documents chat_history = llm /\
      route (EnhancedRouter.route_query query has_documents chat_history)
        = llm) /\
  (IntelligentRouter.route_query
     "Do you understand the uploaded document?" true one_exchange = llm /\
   IntelligentRouter.route_query
     "Do you understand the uploaded document?" true [] = rag /\
   EnhancedRouter.route_query "Random latest news" false one_exchange
     = mkDecision llm 1.0 "Context reference" /\
   EnhancedRouter.route_query "Random latest news" false []
     = mkDecision web 0.95 "Real-time data") /\
  (forall marker query tail,
      In marker pronoun_markers ->
      tail = "it" \/ tail = "it?" ->
      Py.str_in marker (Py.lower (query ++ tail))
        = Py.str_in marker (Py.lower query)) /\
  (forall chat_history,
      Router._has_conversation_context "what about it?" chat_history = false /\
      Router._has_conversation_context "what about it" chat_history = false).
Proof.
  split; [exact RouterFacts.context_spec|].
  split.
  { intros before word after has_documents chat_history Hh Hw query.
    assert (Hin : Py.str_in "and" (Py.lower query) = true).
    { rewrite <- Hw. apply PyFacts.str_in_lower. }
    assert (Hm : In "and" Router.context_indicators) by (simpl; tauto).
    pose proof (RouterFacts.context_of_marker query "and" chat_history
                  Hh Hm Hin) as Hctx.
    split.
    - apply RouterFacts.basic_llm_by_stage3. now left.
    - pose proof (RouterFacts.enhanced_llm_by_stage3 query has_documents
                    chat_history (or_introl Hctx)) as He.
      simpl in He. destruct He as [<- | [<- | [<- | []]]]; reflexivity. }
  split; [repeat split; reflexivity|].
  split.
  { intros marker query tail Hm Ht.
    destruct (pronoun_marker_ends_with_space marker Hm) as [m' ->].
    rewrite PyFacts.lower_app.
    destruct Ht as [-> | ->]; apply PyFacts.str_in_app_absent; reflexivity. }
  intros chat_history. destruct chat_history; split; reflexivity.
Qed.

Lemma continuation_substring_witness :
  IntelligentRouter.route_query ("R" ++ "and" ++ "om latest news") true
    one_exchange = llm /\
  route (EnhancedRouter.route_query ("R" ++ "and" ++ "om latest news") true
           one_exchange) = llm.
Proof.
  apply (proj1 (proj2 continuation_markers_are_substrings)
           "R" "and" "om latest news" true one_exchange).
  - discriminate.
  - reflexivity.
Defined.

(** ** The managers: what a run leaves of the session *)

Module RunFacts.

Lemma log_event_extend (e : event) (w : world) :
  log_event e w = extend_trace w [e].
Proof. reflexivity. Qed.

Lemma extend_trace_nil (w : world) : extend_trace w [] = w.
Proof. destruct w; unfold extend_trace; simpl. now rewrite app_nil_r. Qed.

Lemma extend_trace_app (w : world) (a b : list event) :
  extend_trace (extend_trace w a) b = extend_trace w (a ++ b).
Proof. unfold extend_trace; simpl. now rewrite app_assoc. Qed.

(** Unfolding of the monad, leaving prompts and keyword tests folded. *)
Ltac run :=
  cbv beta delta [bind ret call emit try_except try_finally
                  get_messages get_vectorstore add_message count_query]
      iota zeta.

End RunFacts.

Module EnhancedFacts.
Import Text RunFacts.

Section Facts.
Variable ext : collaborators.

(** The enhanced LLM pipeline always returns an answer and leaves the
    session state as it was. *)
Lemma enhanced_answer_with_llm_run (query : string) (h : list message) (w : world) :
  let prompt := llm_prompt (chat_history w) query in
  EnhancedChatbotManager.answer_with_llm ext query h w
  = (Ok (llm_answer (llm_invoke ext prompt)),
     extend_trace w (llm_events prompt (llm_invoke ext prompt))).
Proof.
  intros prompt. unfold EnhancedChatbotManager.answer_with_llm. run.
  fold prompt. destruct (llm_invoke ext prompt) as [content | e]; simpl.
  - reflexivity.
  - unfold log_event, extend_trace; simpl. now rewrite <- app_assoc.
Qed.

Lemma enhanced_answer_with_rag_total (query : string) (vs : option FAISS)
    (h : list message) (w : world) :
  exists a evs,
    EnhancedChatbotManager.answer_with_rag ext query vs h w
    = (Ok a, extend_trace w evs).
Proof.
  unfold EnhancedChatbotManager.answer_with_rag. run.
  destruct vs as [vs|].
  - destruct (retriever_invoke ext vs query) as [docs | e].
    + destruct (llm_invoke ext (rag_prompt docs query)) as [content | e].
      * destruct docs as [|d ds].
        -- eexists; exists [RetrieverInvoke query;
                            LLMInvoke (rag_prompt [] query)].
           unfold log_event, extend_trace; simpl.
           rewrite <- !app_assoc. reflexivity.
        -- eexists; exists [RetrieverInvoke query;
                            LLMInvoke (rag_prompt (d :: ds) query)].
           unfold log_event, extend_trace; simpl.
           rewrite <- !app_assoc. reflexivity.
      * eexists; exists [RetrieverInvoke query;
                         LLMInvoke (rag_prompt docs query);
                         LogError ("RAG error: " ++ e)].
        unfold log_event, extend_trace; simpl.
        rewrite <- !app_assoc. reflexivity.
    + eexists; exists [RetrieverInvoke query; LogError ("RAG error: " ++ e)].
      unfold log_event, extend_trace; simpl.
      rewrite <- !app_assoc. reflexivity.
  - eexists; exists []. now rewrite extend_trace_nil.
Qed.

(** When the search tool raises, the enhanced web pipeline logs the
    error and returns what the LLM pipeline answers to the query with the
    note appended. *)
Lemma enhanced_answer_with_web_fallback (query e : string) (w : world) :
  search_run ext query = Raise e ->
  let w1 := extend_trace w [SearchRun query;
                            LogError ("Web search error: " ++ e)] in
  EnhancedChatbotManager.answer_with_web ext query w
  = EnhancedChatbotManager.answer_with_llm ext
      (query ++ EnhancedChatbotManager.web_unavailable_note)
      (chat_history w1) w1.
Proof.
  intros He w1. unfold EnhancedChatbotManager.answer_with_web. run.
  rewrite He.
  replace (log_event (LogError ("Web search error: " ++ e))
             (log_event (SearchRun query) w)) with w1.
  - reflexivity.
  - unfold w1, log_event, extend_trace; simpl. now rewrite <- app_assoc.
Qed.

Lemma enhanced_answer_with_web_total (query : string) (w : world) :
  exists a evs,
    EnhancedChatbotManager.answer_with_web ext query w
    = (Ok a, extend_trace w evs).
Proof.
  destruct (search_run ext query) as [results | e] eqn:Hs.
  - unfold EnhancedChatbotManager.answer_with_web. run. rewrite Hs.
    set (prompt := EnhancedChatbotManager.synthesis_prompt query results).
    destruct (llm_invoke ext prompt) as [content | e].
    + eexists; exists [SearchRun query; LLMInvoke prompt].
      unfold log_event, extend_trace; simpl.
      rewrite <- !app_assoc. reflexivity.
    + rewrite enhanced_answer_with_llm_run. rewrite !log_event_extend.
      rewrite !extend_trace_app. eexists; eexists; reflexivity.
  - rewrite (enhanced_answer_with_web_fallback query e w Hs).
    cbv zeta. rewrite enhanced_answer_with_llm_run, extend_trace_app.
    eexists; eexists; reflexivity.
Qed.

(** [process_query] always returns a result with the route of the
    classifier, and appends the two turns. *)
Lemma enhanced_process_query_total (query : string) (w : world) :
  let has_documents :=
    match vectorstore w with Some _ => true | None => false end in
  let d := EnhancedRouter.route_query query has_documents (chat_history w) in
  exists a evs,
    EnhancedChatbotManager.process_query ext query w
    = (Ok (mkResult a (Route (route d)) (confidence d) (reason d)),
       mkWorld (vectorstore w)
               (chat_history w ++ [HumanMessage query; AIMessage a])
               (stats_incr (route d) (route_stats w))
               (S (total_queries w))
               (trace w ++ evs)).
Proof.
  intros has_documents d.
  assert (Hp : exists a evs,
             match route d with
             | rag => EnhancedChatbotManager.answer_with_rag ext query
                        (vectorstore w) (chat_history w)
             | web => EnhancedChatbotManager.answer_with_web ext query
             | llm => EnhancedChatbotManager.answer_with_llm ext query
                        (chat_history w)
             end w = (Ok a, extend_trace w evs)).
  { destruct (route d).
    - rewrite enhanced_answer_with_llm_run. eexists; eexists; reflexivity.
    - apply enhanced_answer_with_rag_total.
    - apply enhanced_answer_with_web_total. }
  destruct Hp as [a [evs Hp]]. exists a, evs.
  unfold EnhancedChatbotManager.process_query. run.
  fold has_documents. fold d. rewrite Hp. simpl.
  now rewrite <- app_assoc.
Qed.

End Facts.
End EnhancedFacts.

Module BasicFacts.
Import Text RunFacts.

Section Facts.
Variable ext : collaborators.

(** The basic LLM pipeline is one call of the model: its outcome, an
    exception included, is the outcome of the pipeline. *)
Lemma basic_answer_with_llm_run (query : string) (h : list message) (w : world) :
  let prompt := llm_prompt (chat_history w) query in
  ChatbotManager.answer_with_llm ext query h w
  = (llm_invoke ext prompt, extend_trace w [LLMInvoke prompt]).
Proof.
  intros prompt. unfold ChatbotManager.answer_with_llm. run.
  fold prompt. now destruct (llm_invoke ext prompt).
Qed.

(** When the search tool raises, the basic web pipeline answers with a
    notice that quotes the exception, followed by the answer of the LLM
    pipeline to the same query; an exception of the model is not caught. *)
Lemma basic_answer_with_web_fallback (query e : string) (w : world) :
  search_run ext query = Raise e ->
  let prompt := llm_prompt (chat_history w) query in
  ChatbotManager.answer_with_web ext query w
  = (match llm_invoke ext prompt with
     | Ok fallback => Ok (ChatbotManager.web_error_notice e ++ fallback)
     | Raise e' => Raise e'
     end,
     extend_trace w [SearchRun query; LLMInvoke prompt]).
Proof.
  intros He prompt. unfold ChatbotManager.answer_with_web. run.
  rewrite He. rewrite basic_answer_with_llm_run.
  rewrite log_event_extend, extend_trace_app. simpl.
  fold prompt. now destruct (llm_invoke ext prompt).
Qed.

Lemma basic_answer_with_rag_total (query : string) (vs : option FAISS)
    (h : list message) (w : world) :
  exists a evs,
    ChatbotManager.answer_with_rag ext query vs h w
    = (Ok a, extend_trace w evs).
Proof.
  unfold ChatbotManager.answer_with_rag. run.
  destruct vs as [vs|].
  - destruct (retriever_invoke ext vs query) as [docs | e].
    + destruct (llm_invoke ext (rag_prompt docs query)) as [content | e].
      * destruct docs as [|d ds].
        -- eexists; exists [RetrieverInvoke query;
                            LLMInvoke (rag_prompt [] query)].
           unfold log_event, extend_trace; simpl.
           rewrite <- !app_assoc. reflexivity.
        -- eexists; exists [RetrieverInvoke query;
                            LLMInvoke (rag_prompt (d :: ds) query)].
           unfold log_event, extend_trace; simpl.
           rewrite <- !app_assoc. reflexivity.
      * eexists; exists [RetrieverInvoke query;
                         LLMInvoke (rag_prompt docs query)].
        unfold log_event, extend_trace; simpl.
        rewrite <- !app_assoc. reflexivity.
    + eexists; exists [RetrieverInvoke query].
      unfold log_event, extend_trace; simpl. reflexivity.
  - eexists; exists []. now rewrite extend_trace_nil.
Qed.

Lemma basic_answer_with_web_session (query : string) (w : world) :
  exists r evs,
    ChatbotManager.answer_with_web ext query w = (r, extend_trace w evs).
Proof.
  destruct (search_run ext query) as [results | e] eqn:Hs.
  - unfold ChatbotManager.answer_with_web. run. rewrite Hs.
    set (prompt := ChatbotManager.synthesis_prompt query results).
    destruct (llm_invoke ext prompt) as [content | e].
    + eexists; exists [SearchRun query; LLMInvoke prompt].
      unfold log_event, extend_trace; simpl.
      rewrite <- !app_assoc. reflexivity.
    + rewrite basic_answer_with_llm_run. rewrite !log_event_extend.
      rewrite !extend_trace_app. simpl chat_history.
      destruct (llm_invoke ext (llm_prompt (chat_history w) query));
        eexists; eexists; reflexivity.
  - rewrite (basic_answer_with_web_fallback query e w Hs).
    eexists; eexists; reflexivity.
Qed.

(** [process_query] either returns the answer with both turns appended,
    or raises with the session state as it was. *)
Lemma basic_process_query_run (query : string) (w : world) :
  let has_documents :=
    match vectorstore w with Some _ => true | None => false end in
  let r := IntelligentRouter.route_query query has_documents (chat_history w) in
  exists evs,
    (exists a,
        ChatbotManager.process_query ext query w
        = (Ok (mkBasicResult a r),
           mkWorld (vectorstore w)
                   (chat_history w ++ [HumanMessage query; AIMessage a])
                   (route_stats w) (total_queries w) (trace w ++ evs))) \/
    (exists e,
        ChatbotManager.process_query ext query w
        = (Raise e, extend_trace w evs)).
Proof.
  intros has_documents r.
  assert (Hp : exists o evs,
             match r with
             | rag => ChatbotManager.answer_with_rag ext query
                        (vectorstore w) (chat_history w)
             | web => ChatbotManager.answer_with_web ext query
             | llm => ChatbotManager.answer_with_llm ext query
                        (chat_history w)
             end w = (o, extend_trace w evs)).
  { destruct r.
    - rewrite basic_answer_with_llm_run. eexists; eexists; reflexivity.
    - destruct (basic_answer_with_rag_total query (vectorstore w) (chat_history w) w)
        as [a [evs H]]. now exists (Ok a), evs.
    - apply basic_answer_with_web_session. }
  destruct Hp as [o [evs Hp]]. exists evs.
  unfold ChatbotManager.process_query. run.
  fold has_documents. fold r. rewrite Hp.
  destruct o as [a | e].
  - left. exists a. simpl. now rewrite <- app_assoc.
  - right. now exists e.
Qed.

End Facts.
End BasicFacts.

(** ** Claims about the pipelines *)

(** C8. With no vector store, the RAG pipeline of either manager returns
    its fixed message for every query and leaves the world as it was: no
    call of the retriever or of the language model is made. *)
Theorem rag_without_index_returns_fixed_message :
  forall (ext : collaborators) (query : string)
         (chat_history : list message) (w : world),
    ChatbotManager.answer_with_rag ext query None chat_history w
    = (Ok "No documents have been uploaded yet. Please upload documents to use RAG.",
       w) /\
    EnhancedChatbotManager.answer_with_rag ext query None chat_history w
    = (Ok "No documents available. Please upload documents first.", w).
Proof. intros ext query chat_history w. split; reflexivity. Qed.

(** The index is null when no file of the batch gave a document: both
    managers return [None] for a batch of unsupported files. *)
Example no_documents_no_index :
  fst (ChatbotManager.process_documents (working "" "")
         [mkUploadedFile "photo.png" "PNG"] fresh_session) = Ok None /\
  fst (EnhancedChatbotManager.process_documents (working "" "")
         [mkUploadedFile "photo.png" "PNG"] fresh_session) = Ok None.
Proof. split; reflexivity. Qed.

(** C7, as the spec states it, fails in the basic manager: when the
    search tool raises, the answer starts with a notice that quotes the
    text of the exception. *)
Lemma basic_web_fallback_quotes_exception :
  search_run (search_down "202 Ratelimit" "I cannot look up live prices.")
    "What's the current stock price of Acme Corp?" = Raise "202 Ratelimit" /\
  fst (ChatbotManager.answer_with_web
         (search_down "202 Ratelimit" "I cannot look up live prices.")
         "What's the current stock price of Acme Corp?" fresh_session)
  = Ok ("Web search encountered an error: 202 Ratelimit" ++ Text.nl
        ++ "Let me try to answer from my knowledge instead." ++ Text.nl
        ++ Text.nl ++ "I cannot look up live prices.") /\
  Py.str_in "202 Ratelimit"
    ("Web search encountered an error: 202 Ratelimit" ++ Text.nl
     ++ "Let me try to answer from my knowledge instead." ++ Text.nl
     ++ Text.nl ++ "I cannot look up live prices.") = true.
Proof. repeat split; reflexivity. Qed.

(** C7, as amended.  When the search tool raises, both web pipelines
    catch the exception and fall back to the LLM pipeline.  The enhanced
    manager logs the error and returns what its LLM pipeline answers to
    the query with the note that web search is unavailable appended: the
    reply of the model, or the apology of that pipeline when the model
    raises too; the text of the search exception is not put into the
    answer.  The basic manager calls its LLM pipeline on the unchanged
    query and puts a notice quoting the search exception before the
    reply; an exception of the model is not caught. *)
Theorem web_search_failure_falls_back_to_llm :
  forall (ext : collaborators) (query e : string) (w : world),
    search_run ext query = Raise e ->
    let noted := query ++ " (Note: Web search unavailable, using general knowledge)" in
    let w1 := extend_trace w [SearchRun query;
                              LogError ("Web search error: " ++ e)] in
    EnhancedChatbotManager.answer_with_web ext query w
    = EnhancedChatbotManager.answer_with_llm ext noted (chat_history w) w1 /\
    fst (EnhancedChatbotManager.answer_with_web ext query w)
    = Ok (llm_answer (llm_invoke ext (Text.llm_prompt (chat_history w) noted))) /\
    ChatbotManager.answer_with_web ext query w
    = (match llm_invoke ext (Text.llm_prompt (chat_history w) query) with
       | Ok reply =>
           Ok ("Web search encountered an error: " ++ e ++ Text.nl
               ++ "Let me try to answer from my knowledge instead."
               ++ Text.nl ++ Text.nl ++ reply)
       | Raise e' => Raise e'
       end,
       extend_trace w [SearchRun query;
                       LLMInvoke (Text.llm_prompt (chat_history w) query)]).
Proof.
  intros ext query e w He noted w1.
  pose proof (EnhancedFacts.enhanced_answer_with_web_fallback ext query e w He) as Hf.
  cbv zeta in Hf. fold w1 in Hf.
  split; [exact Hf|]. split.
  - rewrite Hf, EnhancedFacts.enhanced_answer_with_llm_run. reflexivity.
  - rewrite (BasicFacts.basic_answer_with_web_fallback ext query e w He).
    unfold ChatbotManager.web_error_notice.
    destruct (llm_invoke ext (Text.llm_prompt (chat_history w) query));
      [|reflexivity].
    now rewrite !PyFacts.str_app_assoc.
Qed.

Lemma web_search_failure_witness :
  fst (EnhancedChatbotManager.answer_with_web
         (search_down "202 Ratelimit" "I cannot look up live prices.")
         "What's the current stock price of Acme Corp?" fresh_session)
  = Ok "I cannot look up live prices.".
Proof.
  exact (proj1 (proj2 (web_search_failure_falls_back_to_llm
                         (search_down "202 Ratelimit"
                                      "I cannot look up live prices.")
                         "What's the current stock price of Acme Corp?"
                         "202 Ratelimit" fresh_session eq_refl))).
Defined.

(** C2, at the input where the basic manager breaks it.  The query is
    routed to llm and the language model raises: [ChatbotManager]'s
    [process_query] lets the exception escape (its LLM pipeline and the
    function itself have no [try]), where [EnhancedChatbotManager]'s
    returns a result with an apology as the answer.  Both are atomic on
    the conversation: the basic manager appends no turn, the enhanced one
    appends both. *)
Theorem basic_process_query_lets_llm_error_escape :
  ChatbotManager.process_query (llm_down "Error code: 429 - rate limit")
    "Explain quantum computing" fresh_session
  = (Raise "Error code: 429 - rate limit",
     extend_trace fresh_session
       [LLMInvoke (Text.llm_prompt [] "Explain quantum computing")]) /\
  EnhancedChatbotManager.process_query (llm_down "Error code: 429 - rate limit")
    "Explain quantum computing" fresh_session
  = (Ok (mkResult
           "I apologize, but I encountered an error: Error code: 429 - rate limit"
           (Route llm) 0.9 "General knowledge"),
     mkWorld None
       [HumanMessage "Explain quantum computing";
        AIMessage "I apologize, but I encountered an error: Error code: 429 - rate limit"]
       (mkStats 1 0 0) 1
       [LLMInvoke (Text.llm_prompt [] "Explain quantum computing");
        LogError "LLM error: Error code: 429 - rate limit"]).
Proof. split; reflexivity. Qed.

(** C6, at the input where the basic manager breaks it.  The PDF loader
    raises on the first file of a batch of two: [ChatbotManager]'s
    [process_documents] unlinks the temporary file and lets the exception
    escape, without a warning and without reading the second file (its
    [try] has a [finally] and no [except]), where
    [EnhancedChatbotManager]'s records the error, reads the second file,
    warns once and builds the index from what was read. *)
Theorem basic_process_documents_lets_parse_error_escape :
  ChatbotManager.process_documents (pdf_loader_down "EOF marker not found")
    [mkUploadedFile "broken.pdf" "%PDF"; mkUploadedFile "notes.txt" "hello"]
    fresh_session
  = (Raise "EOF marker not found",
     extend_trace fresh_session
       [TempFileWrite "broken.pdf" ".pdf"; LoaderLoad "broken.pdf";
        Unlink "broken.pdf"]) /\
  EnhancedChatbotManager.process_documents
    (pdf_loader_down "EOF marker not found")
    [mkUploadedFile "broken.pdf" "%PDF"; mkUploadedFile "notes.txt" "hello"]
    fresh_session
  = (Ok (Some (mkFAISS [mkDocument "hello" (Some "/tmp/notes.txt")])),
     extend_trace fresh_session
       [TempFileWrite "broken.pdf" ".pdf"; LoaderLoad "broken.pdf";
        LogError "Error processing broken.pdf: EOF marker not found";
        Unlink "broken.pdf";
        TempFileWrite "notes.txt" ".txt"; LoaderLoad "notes.txt";
        LogInfo "Successfully processed: notes.txt";
        Unlink "notes.txt";
        StWarning ("Some files had errors:" ++ Text.nl
                   ++ "Error processing broken.pdf: EOF marker not found");
        FromDocuments [mkDocument "hello" (Some "/tmp/notes.txt")];
        LogInfo "Created vector store with 1 chunks"]).
Proof. split; reflexivity. Qed.

(** ** Further properties of the managers *)

(** X23. What [process_query] reports as route, confidence and reason is
    the decision of [route_query] on the query, on whether a vector
    store is present and on the conversation, and nothing else of the
    session or of the collaborators enters it: run in two worlds that
    agree on these and differ in anything else (counters, trace, the
    collaborators and what they answer or raise), the enhanced manager
    reports the same decision, and the basic manager the same route
    whenever it returns. *)
Theorem process_query_reports_router_decision :
  forall (ext1 ext2 : collaborators) (query : string) (w1 w2 : world),
    (vectorstore w1 = None <-> vectorstore w2 = None) ->
    chat_history w1 = chat_history w2 ->
    let has_documents :=
      match vectorstore w1 with Some _ => true | None => false end in
    let d := EnhancedRouter.route_query query has_documents (chat_history w1) in
    (exists a1 a2 w1' w2',
        EnhancedChatbotManager.process_query ext1 query w1
        = (Ok (mkResult a1 (Route (route d)) (confidence d) (reason d)), w1') /\
        EnhancedChatbotManager.process_query ext2 query w2
        = (Ok (mkResult a2 (Route (route d)) (confidence d) (reason d)), w2')) /\
    (forall r1 r2 w1' w2',
        ChatbotManager.process_query ext1 query w1 = (Ok r1, w1') ->
        ChatbotManager.process_query ext2 query w2 = (Ok r2, w2') ->
        basic_route r1
        = IntelligentRouter.route_query query has_documents (chat_history w1) /\
        basic_route r2 = basic_route r1).
Proof.
  intros ext1 ext2 query w1 w2 Hvs Hh has_documents d.
  assert (Hhd : match vectorstore w2 with Some _ => true | None => false end
                = has_documents).
  { unfold has_documents.
    destruct (vectorstore w1) as [v1|], (vectorstore w2) as [v2|];
      try reflexivity.
    - destruct Hvs as [_ H]. discriminate (H eq_refl).
    - destruct Hvs as [H _]. discriminate (H eq_refl). }
  split.
  - destruct (EnhancedFacts.enhanced_process_query_total ext1 query w1)
      as [a1 [evs1 H1]].
    destruct (EnhancedFacts.enhanced_process_query_total ext2 query w2)
      as [a2 [evs2 H2]].
    cbv zeta in H1, H2. rewrite Hhd, <- Hh in H2.
    fold has_documents in H1. fold d in H1, H2.
    eexists a1, a2, _, _. split; [exact H1 | exact H2].
  - intros r1 r2 w1' w2' E1 E2.
    destruct (BasicFacts.basic_process_query_run ext1 query w1) as [evs1 H1].
    destruct (BasicFacts.basic_process_query_run ext2 query w2) as [evs2 H2].
    cbv zeta in H1, H2. rewrite Hhd, <- Hh in H2.
    fold has_documents in H1.
    destruct H1 as [[a1 H1] | [e1 H1]]; rewrite H1 in E1; [|discriminate].
    destruct H2 as [[a2 H2] | [e2 H2]]; rewrite H2 in E2; [|discriminate].
    injection E1 as <- _. injection E2 as <- _. simpl. now split.
Qed.

Lemma process_query_reports_router_witness :
  exists a1 a2 w1' w2',
    EnhancedChatbotManager.process_query
      (working "Hello!" "") "What's the weather today?" fresh_session
    = (Ok (mkResult a1 (Route web) 0.95 "Real-time data"), w1') /\
    EnhancedChatbotManager.process_query
      (llm_down "timeout") "What's the weather today?"
      (mkWorld None [] (mkStats 3 1 2) 6 [LogInfo "Enhanced router initialized"])
    = (Ok (mkResult a2 (Route web) 0.95 "Real-time data"), w2').
Proof.
  exact (proj1 (process_query_reports_router_decision
                  (working "Hello!" "") (llm_down "timeout")
                  "What's the weather today?" fresh_session
                  (mkWorld None [] (mkStats 3 1 2) 6
                           [LogInfo "Enhanced router initialized"])
                  (conj (fun _ => eq_refl) (fun _ => eq_refl)) eq_refl)).
Defined.

Module IngestFacts.
Import Text RunFacts.

Section Facts.
Variable ext : collaborators.

Lemma enhanced_process_file_run (f : UploadedFile) (documents : list Document)
    (errors : list string) (w : world) :
  EnhancedChatbotManager.process_file ext f documents errors w
  = (Ok (documents ++ file_documents ext f, errors ++ file_errors ext f)%list,
     extend_trace w (file_events ext f)).
Proof.
  unfold EnhancedChatbotManager.process_file, file_documents, file_errors,
    file_events, file_loader, loader_of_extension.
  run.
  set (file_ext := Py.lower (after_last "." (name f))).
  destruct (String.eqb file_ext "pdf");
    [| destruct (String.eqb file_ext "txt");
       [| destruct (String.eqb file_ext "docx")]];
    try (match goal with
         | |- context [loader_load ext ?l f] =>
             destruct (loader_load ext l f) as [docs | e]
         end);
    unfold log_event, extend_trace; simpl;
    rewrite <- ?app_assoc, ?app_nil_r; reflexivity.
Qed.

Lemma enhanced_process_files_run (files : list UploadedFile) :
  forall (documents : list Document) (errors : list string) (w : world),
    EnhancedChatbotManager.process_files ext files documents errors w
    = (Ok (documents ++ flat_map (file_documents ext) files,
           errors ++ flat_map (file_errors ext) files)%list,
       extend_trace w (flat_map (file_events ext) files)).
Proof.
  induction files as [|f files IH]; intros documents errors w.
  - simpl. unfold ret. now rewrite !app_nil_r, extend_trace_nil.
  - cbn [EnhancedChatbotManager.process_files flat_map].
    unfold bind at 1. rewrite enhanced_process_file_run.
    cbn [fst snd]. rewrite IH, extend_trace_app, <- !app_assoc.
    reflexivity.
Qed.

End Facts.
End IngestFacts.

(** X1. In the enhanced manager, no failure of a loader escapes
    [process_documents]: each file that fails or is not supported gives
    an error message (a failure is logged as well), the other files are
    still read, and the messages are shown in one warning after the
    batch.  The outcome is [None] exactly when no file of the batch gave
    a document; otherwise it is what [FAISS.from_documents] gives for
    the documents of the files that loaded, in order.  The whole run is
    pinned: outcome and events. *)
Theorem enhanced_process_documents_outcome :
  forall (ext : collaborators) (files : list UploadedFile) (w : world),
    let documents := flat_map (file_documents ext) files in
    let errors := flat_map (file_errors ext) files in
    let read :=
      (flat_map (file_events ext) files ++ batch_warning errors)%list in
    EnhancedChatbotManager.process_documents ext files w
    = match documents with
      | [] => (Ok None, extend_trace w read)
      | _ :: _ =>
          match from_documents ext documents with
          | Ok vs =>
              (Ok (Some vs),
               extend_trace w
                 (read ++ [FromDocuments documents;
                           LogInfo ("Created vector store with "
                                    ++ Text.str_of_nat
                                         (List.length (chunks vs))
                                    ++ " chunks")]))
          | Raise e =>
              (Raise e, extend_trace w (read ++ [FromDocuments documents]))
          end
      end /\
    (forall (f : UploadedFile) (loader : Loader) (e : string),
        In f files ->
        file_loader f = Some loader ->
        loader_load ext loader f = Raise e ->
        In ("Error processing " ++ name f ++ ": " ++ e) errors /\
        In (LogError ("Error processing " ++ name f ++ ": " ++ e))
           (trace (snd (EnhancedChatbotManager.process_documents ext files w)))
        /\
        In (StWarning ("Some files had errors:" ++ Text.nl
                       ++ String.concat Text.nl errors))
           (trace (snd (EnhancedChatbotManager.process_documents ext files w))))
    /\
    (forall f : UploadedFile,
        In f files ->
        file_loader f = None ->
        In ("Unsupported file type: " ++ name f) errors).
Proof.
  intros ext files w documents errors read.
  assert (Hrun :
    EnhancedChatbotManager.process_documents ext files w
    = match documents with
      | [] => (Ok None, extend_trace w read)
      | _ :: _ =>
          match from_documents ext documents with
          | Ok vs =>
              (Ok (Some vs),
               extend_trace w
                 (read ++ [FromDocuments documents;
                           LogInfo ("Created vector store with "
                                    ++ Text.str_of_nat
                                         (List.length (chunks vs))
                                    ++ " chunks")]))
          | Raise e =>
              (Raise e, extend_trace w (read ++ [FromDocuments documents]))
          end
      end).
  { unfold EnhancedChatbotManager.process_documents.
    unfold bind at 1. rewrite IngestFacts.enhanced_process_files_run.
    cbn [fst snd app]. fold documents. fold errors. unfold read.
    destruct errors as [|e errors]; destruct documents as [|d documents];
      RunFacts.run; cbn [batch_warning];
      rewrite ?RunFacts.log_event_extend, ?RunFacts.extend_trace_app,
        ?app_nil_r; try reflexivity;
      destruct (from_documents ext (d :: documents));
      rewrite ?RunFacts.log_event_extend, ?RunFacts.extend_trace_app,
        <- ?app_assoc; reflexivity. }
  assert (Hread : forall ev, In ev read ->
            In ev (trace (snd (EnhancedChatbotManager.process_documents
                                 ext files w)))).
  { intros ev Hev. rewrite Hrun.
    destruct documents as [|d ds];
      [| destruct (from_documents ext (d :: ds))];
      cbn [snd trace extend_trace];
      apply in_or_app; right; try exact Hev;
      apply in_or_app; now left. }
  split; [exact Hrun|]. split.
  - intros f loader e Hf Hl He.
    assert (Herr : In ("Error processing " ++ name f ++ ": " ++ e) errors).
    { apply in_flat_map. exists f. split; [exact Hf|].
      unfold file_errors. rewrite Hl, He. now left. }
    split; [exact Herr|]. split.
    + apply Hread. unfold read. apply in_or_app. left.
      apply in_flat_map. exists f. split; [exact Hf|].
      unfold file_events. rewrite Hl, He. simpl. tauto.
    + apply Hread. unfold read. apply in_or_app. right.
      destruct errors as [|e0 errors]; [contradiction|]. now left.
  - intros f Hf Hl. apply in_flat_map. exists f. split; [exact Hf|].
    unfold file_errors. rewrite Hl. now left.
Qed.

Lemma enhanced_process_documents_witness :
  In (LogError "Error processing broken.pdf: EOF marker not found")
     (trace (snd (EnhancedChatbotManager.process_documents
                    (pdf_loader_down "EOF marker not found")
                    [mkUploadedFile "broken.pdf" "%PDF";
                     mkUploadedFile "notes.txt" "hello"]
                    fresh_session))) /\
  In (StWarning ("Some files had errors:" ++ Text.nl
                 ++ "Error processing broken.pdf: EOF marker not found"))
     (trace (snd (EnhancedChatbotManager.process_documents
                    (pdf_loader_down "EOF marker not found")
                    [mkUploadedFile "broken.pdf" "%PDF";
                     mkUploadedFile "notes.txt" "hello"]
                    fresh_session))).
Proof.
  exact (proj2 (proj1 (proj2 (enhanced_process_documents_outcome
                                (pdf_loader_down "EOF marker not found")
                                [mkUploadedFile "broken.pdf" "%PDF";
                                 mkUploadedFile "notes.txt" "hello"]
                                fresh_session))
                  (mkUploadedFile "broken.pdf" "%PDF") PyPDFLoader
                  "EOF marker not found"
                  (or_introl eq_refl) eq_refl eq_refl)).
Defined.

(** X2. In the enhanced manager, [process_query] returns a result for every
    query, world and collaborators, never with the route error, and
    leaves the conversation extended by the user turn and then the
    assistant turn with the answer it returns. *)
Theorem enhanced_process_query_returns_result :
  forall (ext : collaborators) (query : string) (w : world),
    exists r w',
      EnhancedChatbotManager.process_query ext query w = (Ok r, w') /\
      result_route r <> ErrorRoute /\
      chat_history w'
      = (chat_history w ++ [HumanMessage query; AIMessage (answer r)])%list /\
      vectorstore w' = vectorstore w /\
      total_queries w' = S (total_queries w).
Proof.
  intros ext query w.
  destruct (EnhancedFacts.enhanced_process_query_total ext query w)
    as [a [evs H]].
  cbv zeta in H. eexists; eexists. split; [exact H|].
  simpl. repeat split. discriminate.
Qed.

(** X3. In the basic manager, [process_query] is atomic on the conversation:
    it returns a result and has appended the user turn and then the
    assistant turn, or it raises and the conversation is as it was. *)
Theorem basic_process_query_atomic :
  forall (ext : collaborators) (query : string) (w : world),
    (exists r w',
        ChatbotManager.process_query ext query w = (Ok r, w') /\
        chat_history w'
        = (chat_history w
           ++ [HumanMessage query; AIMessage (basic_answer r)])%list) \/
    (exists e w',
        ChatbotManager.process_query ext query w = (Raise e, w') /\
        chat_history w' = chat_history w).
Proof.
  intros ext query w.
  destruct (BasicFacts.basic_process_query_run ext query w) as [evs H].
  cbv zeta in H. destruct H as [[a H] | [e H]].
  - left. eexists; eexists. split; [exact H | reflexivity].
  - right. eexists; eexists. split; [exact H | reflexivity].
Qed.

(** X4. The greeting stage comes first and matches a prefix of the
    text, not a word.  For an ASCII query the enhanced router answers
    Conversational, llm with confidence 1.0, exactly when the query
    begins with one of its twelve greeting phrases written in any
    letter case, whatever follows the phrase and whatever the documents
    and the conversation are; and the basic router routes to llm every
    query that begins with one of its fourteen. *)
Theorem greeting_routes_to_llm :
  forall (query : string) (has_documents : bool)
         (chat_history : list message),
    Py.isascii query = true ->
    (EnhancedRouter.route_query query has_documents chat_history
     = mkDecision llm 1.0 "Conversational"
     <-> exists greeting rest,
           query = greeting ++ rest /\
           In (Py.lower greeting) EnhancedRouter.simple_phrases) /\
    (forall greeting rest,
        query = greeting ++ rest ->
        In (Py.lower greeting) IntelligentRouter.simple_phrases ->
        IntelligentRouter.route_query query has_documents chat_history = llm).
Proof.
  intros query has_documents chat_history _.
  assert (Hs : forall phrases greeting rest,
             query = greeting ++ rest ->
             In (Py.lower greeting) phrases ->
             Py.any_startswith phrases (Py.lower query) = true).
  { intros phrases greeting rest -> Hin. unfold Py.any_startswith.
    apply existsb_exists. exists (Py.lower greeting). split; [exact Hin|].
    apply PyFacts.startswith_spec. exists (Py.lower rest).
    apply PyFacts.lower_app. }
  split; [split|].
  - unfold EnhancedRouter.route_query. cbv zeta.
    destruct (Py.any_startswith EnhancedRouter.simple_phrases
                (Py.lower query)) eqn:E.
    + intros _. unfold Py.any_startswith in E.
      apply existsb_exists in E as [p [Hin Hp]].
      destruct (PyFacts.startswith_lower_split p query Hp)
        as [greeting [rest [Hq Hg]]].
      exists greeting, rest. split; [exact Hq|]. now rewrite Hg.
    + destruct (Router._has_conversation_context query chat_history);
        [discriminate|].
      destruct (Router._is_mathematical query); [discriminate|].
      destruct (Router._references_documents query has_documents);
        [discriminate|].
      destruct (Router._needs_realtime_data query); [discriminate|].
      destruct (Py.any_in EnhancedRouter.llm_indicators (Py.lower query));
        discriminate.
  - intros [greeting [rest [Hq Hin]]].
    unfold EnhancedRouter.route_query. cbv zeta.
    now rewrite (Hs _ greeting rest Hq Hin).
  - intros greeting rest Hq Hin.
    unfold IntelligentRouter.route_query. cbv zeta.
    now rewrite (Hs _ greeting rest Hq Hin).
Qed.

Lemma greeting_routes_witness :
  EnhancedRouter.route_query "THANK YOU, what does the file say today?"
    true one_exchange
  = mkDecision llm 1.0 "Conversational" /\
  IntelligentRouter.route_query "THANK YOU, what does the file say today?"
    true one_exchange = llm.
Proof.
  pose proof (greeting_routes_to_llm
                "THANK YOU, what does the file say today?"
                true one_exchange eq_refl) as [He Hb].
  split.
  - apply He. exists "THANK YOU", ", what does the file say today?".
    split; [reflexivity | simpl; tauto].
  - apply (Hb "THANK YOU" ", what does the file say today?");
      [reflexivity | simpl; tauto].
Defined.

(** ** Further properties of the routers *)

Module CaseFacts.
Import Py Router PyFacts.

Ltac by_cases_on_char c :=
  destruct c as [[] [] [] [] [] [] [] []]; reflexivity.

Lemma lower_char_idempotent (c : ascii) :
  lower_char (lower_char c) = lower_char c.
Proof. by_cases_on_char c. Qed.

Lemma lower_idempotent (s : string) : lower (lower s) = lower s.
Proof.
  induction s as [|c s IH]; simpl; [reflexivity|].
  now rewrite lower_char_idempotent, IH.
Qed.

Lemma isdigit_lower_char (c : ascii) : isdigit (lower_char c) = isdigit c.
Proof. by_cases_on_char c. Qed.

Lemma any_digit_lower (s : string) :
  any_char isdigit (lower s) = any_char isdigit s.
Proof.
  induction s as [|c s IH]; simpl; [reflexivity|].
  now rewrite isdigit_lower_char, IH.
Qed.

(** The operator characters are no letters: lowering a text neither
    makes nor removes one. *)
Lemma operator_char_lower (op c : ascii) :
  In op ["+"; "-"; "*"; "/"; "="; "^"]%char ->
  Ascii.eqb op (lower_char c) = Ascii.eqb op c.
Proof.
  intros H. simpl in H.
  repeat (destruct H as [<- | H]; [by_cases_on_char c|]).
  contradiction.
Qed.

Lemma str_in_char_lower (op : ascii) (s : string) :
  In op ["+"; "-"; "*"; "/"; "="; "^"]%char ->
  str_in (String op "") (lower s) = str_in (String op "") s.
Proof.
  intros H. induction s as [|c s IH]; [reflexivity|].
  cbn [lower str_in startswith]. now rewrite operator_char_lower, IH.
Qed.

Lemma operators_lower (s : string) :
  any_in operators (lower s) = any_in operators s.
Proof.
  unfold any_in, operators. cbn [existsb].
  rewrite !(str_in_char_lower _ s) by (simpl; tauto). reflexivity.
Qed.

(** Each keyword test of the routers is a function of the lowercased
    query. *)
Lemma is_mathematical_lower (q : string) :
  _is_mathematical (lower q) = _is_mathematical q.
Proof.
  unfold _is_mathematical. cbv zeta.
  now rewrite lower_idempotent, operators_lower, any_digit_lower.
Qed.

Lemma has_context_lower (q : string) (h : list message) :
  _has_conversation_context (lower q) h = _has_conversation_context q h.
Proof. unfold _has_conversation_context. now rewrite lower_idempotent. Qed.

Lemma references_documents_lower (q : string) (hd : bool) :
  _references_documents (lower q) hd = _references_documents q hd.
Proof. unfold _references_documents. now rewrite lower_idempotent. Qed.

Lemma needs_realtime_lower (q : string) :
  _needs_realtime_data (lower q) = _needs_realtime_data q.
Proof. unfold _needs_realtime_data. now rewrite lower_idempotent. Qed.

Lemma basic_route_lower (q : string) (hd : bool) (h : list message) :
  IntelligentRouter.route_query (lower q) hd h
  = IntelligentRouter.route_query q hd h.
Proof.
  unfold IntelligentRouter.route_query. cbv zeta.
  now rewrite lower_idempotent, has_context_lower, is_mathematical_lower,
    references_documents_lower, needs_realtime_lower.
Qed.

Lemma enhanced_route_lower (q : string) (hd : bool) (h : list message) :
  EnhancedRouter.route_query (lower q) hd h
  = EnhancedRouter.route_query q hd h.
Proof.
  unfold EnhancedRouter.route_query. cbv zeta.
  now rewrite lower_idempotent, has_context_lower, is_mathematical_lower,
    references_documents_lower, needs_realtime_lower.
Qed.

(** The conversation is read for its emptiness only. *)
Lemma has_context_nonempty (q : string) (h1 h2 : list message) :
  h1 <> [] -> h2 <> [] ->
  _has_conversation_context q h1 = _has_conversation_context q h2.
Proof.
  intros H1 H2. unfold _has_conversation_context.
  destruct h1; [contradiction|]. destruct h2; [contradiction|]. reflexivity.
Qed.

End CaseFacts.

(** X5. Routing is case-insensitive for ASCII queries: two of them with
    the same lowercased text get the same route from the basic router
    and the same decision from the enhanced one (the operator and digit
    tests of stage 3 read the raw query, but no letter case changes
    them); in particular a query and its lowercased form are routed
    alike. *)
Theorem routing_ignores_letter_case :
  forall (query1 query2 : string) (has_documents : bool)
         (chat_history : list message),
    Py.isascii query1 = true ->
    Py.isascii query2 = true ->
    Py.lower query1 = Py.lower query2 ->
    IntelligentRouter.route_query query1 has_documents chat_history
    = IntelligentRouter.route_query query2 has_documents chat_history /\
    EnhancedRouter.route_query query1 has_documents chat_history
    = EnhancedRouter.route_query query2 has_documents chat_history.
Proof.
  intros query1 query2 has_documents chat_history _ _ H. split.
  - rewrite <- (CaseFacts.basic_route_lower query1),
      <- (CaseFacts.basic_route_lower query2). now rewrite H.
  - rewrite <- (CaseFacts.enhanced_route_lower query1),
      <- (CaseFacts.enhanced_route_lower query2). now rewrite H.
Qed.

Lemma routing_ignores_letter_case_witness :
  IntelligentRouter.route_query "WHAT'S THE WEATHER TODAY?" true one_exchange
  = IntelligentRouter.route_query "what's the Weather today?" true
      one_exchange /\
  EnhancedRouter.route_query "WHAT'S THE WEATHER TODAY?" true one_exchange
  = EnhancedRouter.route_query "what's the Weather today?" true one_exchange.
Proof.
  apply (routing_ignores_letter_case
           "WHAT'S THE WEATHER TODAY?" "what's the Weather today?" true
           one_exchange); reflexivity.
Defined.

(** X6. The routers look at the conversation only to see whether it is
    empty: two conversations that both hold a message give the same
    route and the same decision for every query, whatever was said. *)
Theorem routing_reads_only_emptiness_of_conversation :
  forall (query : string) (has_documents : bool)
         (history1 history2 : list message),
    history1 <> [] -> history2 <> [] ->
    IntelligentRouter.route_query query has_documents history1
    = IntelligentRouter.route_query query has_documents history2 /\
    EnhancedRouter.route_query query has_documents history1
    = EnhancedRouter.route_query query has_documents history2.
Proof.
  intros query has_documents history1 history2 H1 H2.
  unfold IntelligentRouter.route_query, EnhancedRouter.route_query.
  cbv zeta.
  rewrite (CaseFacts.has_context_nonempty query history1 history2 H1 H2).
  now split.
Qed.

Lemma routing_reads_only_emptiness_witness :
  IntelligentRouter.route_query "and the weather today?" false one_exchange
  = IntelligentRouter.route_query "and the weather today?" false
      [AIMessage "Welcome."] /\
  EnhancedRouter.route_query "and the weather today?" false one_exchange
  = EnhancedRouter.route_query "and the weather today?" false
      [AIMessage "Welcome."].
Proof.
  apply (routing_reads_only_emptiness_of_conversation
           "and the weather today?" false one_exchange [AIMessage "Welcome."]);
    discriminate.
Defined.

(** X7. Uploading documents can change a route only to rag: for every
    query and conversation, the route with documents is rag or it is the
    route without documents; the enhanced decision is the one without
    documents or the decision of stage 4. *)
Theorem documents_change_route_only_to_rag :
  forall (query : string) (chat_history : list message),
    (IntelligentRouter.route_query query true chat_history = rag \/
     IntelligentRouter.route_query query true chat_history
     = IntelligentRouter.route_query query false chat_history) /\
    (EnhancedRouter.route_query query true chat_history
     = mkDecision rag 0.95 "Document reference" \/
     EnhancedRouter.route_query query true chat_history
     = EnhancedRouter.route_query query false chat_history).
Proof.
  intros query chat_history.
  unfold IntelligentRouter.route_query, EnhancedRouter.route_query.
  cbv zeta.
  change (Router._references_documents query false) with false.
  destruct (Py.any_startswith IntelligentRouter.simple_phrases (Py.lower query));
    destruct (Py.any_startswith EnhancedRouter.simple_phrases (Py.lower query));
    destruct (Router._has_conversation_context query chat_history);
    destruct (Router._is_mathematical query);
    destruct (Router._references_documents query true);
    split; tauto.
Qed.

(** X8. The two routers give the same route to every query that does not
    start, in any case, with sup or with yo followed by a space, the two
    greetings only the basic router has; a query that does can differ:
    the basic router stops at stage 1 where the enhanced one goes on to
    stage 5. *)
Theorem routers_agree_but_for_two_greetings :
  (forall (query : string) (has_documents : bool)
          (chat_history : list message),
      Py.any_startswith ["sup"; "yo "] (Py.lower query) = false ->
      IntelligentRouter.route_query query has_documents chat_history
      = route (EnhancedRouter.route_query query has_documents chat_history)) /\
  IntelligentRouter.route_query "Supply chain news today" false [] = llm /\
  route (EnhancedRouter.route_query "Supply chain news today" false []) = web.
Proof.
  split; [|split; reflexivity].
  intros query has_documents chat_history H.
  assert (E : Py.any_startswith IntelligentRouter.simple_phrases (Py.lower query)
              = Py.any_startswith EnhancedRouter.simple_phrases (Py.lower query)).
  { change IntelligentRouter.simple_phrases
      with (EnhancedRouter.simple_phrases ++ ["sup"; "yo "])%list.
    unfold Py.any_startswith in *. rewrite existsb_app, H.
    apply orb_false_r. }
  unfold IntelligentRouter.route_query, EnhancedRouter.route_query.
  cbv zeta. rewrite E.
  repeat match goal with
         | |- context [if ?b then _ else _] => destruct b
         end; reflexivity.
Qed.

Lemma routers_agree_witness :
  IntelligentRouter.route_query "Summarize the uploaded PDF" true one_exchange
  = route (EnhancedRouter.route_query "Summarize the uploaded PDF" true
             one_exchange).
Proof.
  apply (proj1 routers_agree_but_for_two_greetings
           "Summarize the uploaded PDF" true one_exchange).
  reflexivity.
Defined.

(** X9. An ASCII query with a math keyword in its lowercased text and a
    digit anywhere is routed to llm by both routers, before the document
    and the real-time stages; the keywords are substrings, so the add of
    address counts. *)
Theorem math_keyword_with_digit_routes_to_llm :
  forall (query : string) (has_documents : bool)
         (chat_history : list message) (keyword : string),
    Py.isascii query = true ->
    In keyword Router.math_keywords ->
    Py.str_in keyword (Py.lower query) = true ->
    Py.any_char Py.isdigit query = true ->
    IntelligentRouter.route_query query has_documents chat_history = llm /\
    In (EnhancedRouter.route_query query has_documents chat_history)
       [ mkDecision llm 1.0 "Conversational";
         mkDecision llm 1.0 "Context reference";
         mkDecision llm 1.0 "Mathematical" ].
Proof.
  intros query has_documents chat_history keyword _ Hk Hin Hd.
  assert (Hm : Router._is_mathematical query = true).
  { unfold Router._is_mathematical. cbv zeta.
    rewrite (PyFacts.any_in_intro Router.math_keywords keyword _ Hk Hin), Hd.
    apply orb_true_r. }
  split.
  - apply RouterFacts.basic_llm_by_stage3. now right.
  - apply RouterFacts.enhanced_llm_by_stage3. now right.
Qed.

Lemma math_keyword_with_digit_witness :
  IntelligentRouter.route_query
    "What is in the file about the address 10 Downing Street?" true [] = llm /\
  In (EnhancedRouter.route_query
        "What is in the file about the address 10 Downing Street?" true [])
     [ mkDecision llm 1.0 "Conversational";
       mkDecision llm 1.0 "Context reference";
       mkDecision llm 1.0 "Mathematical" ].
Proof.
  apply (math_keyword_with_digit_routes_to_llm
           "What is in the file about the address 10 Downing Street?" true []
           "add").
  - reflexivity.
  - simpl. tauto.
  - reflexivity.
  - reflexivity.
Defined.

(** X10. The test cases of [demonstrate_routing], routed with documents
    uploaded and any conversation: eleven get the route the script
    expects; Who won the 2024 election? is routed to llm, not web (it has
    no temporal word), and What happened in the news today? to rag, not
    web (in the is a document keyword); without documents the four rag
    cases go to llm and that last one to web. *)
Theorem demonstration_cases_routed :
  forall chat_history : list message,
    map (fun c => IntelligentRouter.route_query (fst c) true chat_history)
        test_cases
    = [llm; llm; llm; llm; rag; rag; rag; rag; web; web; web; llm; rag] /\
    map (fun c => route (EnhancedRouter.route_query (fst c) true chat_history))
        test_cases
    = [llm; llm; llm; llm; rag; rag; rag; rag; web; web; web; llm; rag] /\
    map (fun c => IntelligentRouter.route_query (fst c) false chat_history)
        test_cases
    = [llm; llm; llm; llm; llm; llm; llm; llm; web; web; web; llm; web] /\
    map (fun c => route (EnhancedRouter.route_query (fst c) false chat_history))
        test_cases
    = [llm; llm; llm; llm; llm; llm; llm; llm; web; web; web; llm; web] /\
    map snd test_cases
    = [llm; llm; llm; llm; rag; rag; rag; rag; web; web; web; web; web].
Proof. intros [|m h]; repeat split; reflexivity. Qed.

(** ** Further properties of document ingestion *)

Module TempFacts.
Import Text RunFacts.

Lemma open_temp_files_app (a b : list event) (open : list string) :
  open_temp_files (a ++ b) open = open_temp_files b (open_temp_files a open).
Proof.
  revert open. induction a as [|e a IH]; intros open; [reflexivity|].
  destruct e; simpl; apply IH.
Qed.

Lemma balanced_nil : balanced [].
Proof. intros open. reflexivity. Qed.

Lemma balanced_app (a b : list event) :
  balanced a -> balanced b -> balanced (a ++ b).
Proof.
  intros Ha Hb open. now rewrite open_temp_files_app, Ha, Hb.
Qed.

(** A file written, events that touch no file, the file unlinked. *)
Lemma balanced_file (file suffix : string) (mid : list event) :
  open_temp_files mid = (fun open => open) ->
  balanced (TempFileWrite file suffix :: mid ++ [Unlink file]).
Proof.
  intros Hmid open. cbn [open_temp_files].
  rewrite open_temp_files_app, Hmid. cbn [open_temp_files].
  now rewrite String.eqb_refl.
Qed.

Section Facts.
Variable ext : collaborators.

Lemma enhanced_file_events_balanced (f : UploadedFile) :
  balanced (file_events ext f).
Proof.
  unfold file_events. intros open.
  destruct (file_loader f) as [loader|];
    [destruct (loader_load ext loader f)|];
    cbn [open_temp_files app]; now rewrite String.eqb_refl.
Qed.

Lemma enhanced_batch_events_balanced (files : list UploadedFile) :
  balanced (flat_map (file_events ext) files).
Proof.
  induction files as [|f files IH]; [apply balanced_nil|].
  cbn [flat_map]. apply balanced_app; [apply enhanced_file_events_balanced|].
  exact IH.
Qed.

(** The enhanced [process_documents] changes the trace only. *)
Lemma enhanced_process_documents_session (files : list UploadedFile)
    (w : world) :
  exists r evs,
    EnhancedChatbotManager.process_documents ext files w
    = (r, extend_trace w evs) /\ balanced evs.
Proof.
  unfold EnhancedChatbotManager.process_documents.
  unfold bind at 1. rewrite IngestFacts.enhanced_process_files_run.
  cbn [fst snd app].
  pose proof (enhanced_batch_events_balanced files) as Hb.
  set (batch := flat_map (file_events ext) files) in *.
  destruct (flat_map (file_errors ext) files) as [|e errors];
    destruct (flat_map (file_documents ext) files) as [|d documents]; run.
  - eexists; exists batch. split; [reflexivity | exact Hb].
  - destruct (from_documents ext (d :: documents)) as [vs | e'].
    + eexists; eexists. split.
      * rewrite !log_event_extend, !extend_trace_app. reflexivity.
      * apply balanced_app; [exact Hb | intros open; reflexivity].
    + eexists; eexists. split.
      * rewrite !log_event_extend, !extend_trace_app. reflexivity.
      * apply balanced_app; [exact Hb | intros open; reflexivity].
  - eexists; eexists. split.
    + rewrite !log_event_extend, !extend_trace_app. reflexivity.
    + apply balanced_app; [exact Hb | intros open; reflexivity].
  - destruct (from_documents ext (d :: documents)) as [vs | e'].
    + eexists; eexists. split.
      * rewrite !log_event_extend, !extend_trace_app. reflexivity.
      * apply balanced_app; [exact Hb | intros open; reflexivity].
    + eexists; eexists. split.
      * rewrite !log_event_extend, !extend_trace_app. reflexivity.
      * apply balanced_app; [exact Hb | intros open; reflexivity].
Qed.

(** One turn of the loop of the basic manager. *)
Lemma basic_process_file_run (f : UploadedFile) (w : world) :
  ChatbotManager.process_file ext f w
  = match basic_file_loader f with
    | Some loader =>
        (loader_load ext loader f,
         extend_trace w
           [TempFileWrite (name f) ("." ++ after_last "." (name f));
            LoaderLoad (name f); Unlink (name f)])
    | None =>
        (Ok [],
         extend_trace w
           [TempFileWrite (name f) ("." ++ after_last "." (name f));
            StWarning ("Unsupported file type: " ++ name f);
            Unlink (name f)])
    end.
Proof.
  unfold ChatbotManager.process_file, basic_file_loader. run.
  destruct (Py.endswith (name f) ".pdf");
    [| destruct (Py.endswith (name f) ".txt");
       [| destruct (Py.endswith (name f) ".docx")]];
    cbv beta iota;
    rewrite !log_event_extend, !extend_trace_app; try reflexivity;
    match goal with
    | |- context [loader_load ext ?l f] => now destruct (loader_load ext l f)
    end.
Qed.

Lemma basic_process_file_session (f : UploadedFile) (w : world) :
  exists r evs,
    ChatbotManager.process_file ext f w = (r, extend_trace w evs) /\
    balanced evs.
Proof.
  rewrite basic_process_file_run.
  destruct (basic_file_loader f); eexists; eexists;
    (split; [reflexivity|]);
    intros open; cbn [open_temp_files]; now rewrite String.eqb_refl.
Qed.

Lemma basic_process_files_session (files : list UploadedFile) :
  forall (documents : list Document) (w : world),
    exists r evs,
      ChatbotManager.process_files ext files documents w
      = (r, extend_trace w evs) /\ balanced evs.
Proof.
  induction files as [|f files IH]; intros documents w.
  - exists (Ok documents), []. split; [|apply balanced_nil].
    simpl. unfold ret. now rewrite extend_trace_nil.
  - cbn [ChatbotManager.process_files]. unfold bind.
    destruct (basic_process_file_session f w) as [r [evs [E Hb]]].
    rewrite E. destruct r as [docs | e].
    + destruct (IH (documents ++ docs)%list (extend_trace w evs))
        as [r' [evs' [E' Hb']]].
      rewrite E', extend_trace_app. exists r', (evs ++ evs')%list.
      split; [reflexivity | now apply balanced_app].
    + exists (Raise e), evs. now split.
Qed.

Lemma basic_process_documents_session (files : list UploadedFile)
    (w : world) :
  exists r evs,
    ChatbotManager.process_documents ext files w = (r, extend_trace w evs) /\
    balanced evs.
Proof.
  unfold ChatbotManager.process_documents. unfold bind at 1.
  destruct (basic_process_files_session files [] w) as [r [evs [E Hb]]].
  rewrite E. destruct r as [[|d documents] | e].
  - exists (Ok None), evs. now split.
  - run. rewrite log_event_extend, extend_trace_app.
    destruct (from_documents ext (d :: documents)) as [vs | e];
      eexists; eexists; (split; [reflexivity|]);
      (apply balanced_app; [exact Hb | intros open; reflexivity]).
  - exists (Raise e), evs. now split.
Qed.

(** The loop over two batches in a row. *)
Lemma basic_process_files_app (l1 l2 : list UploadedFile) :
  forall (documents : list Document) (w : world),
    ChatbotManager.process_files ext (l1 ++ l2) documents w
    = match ChatbotManager.process_files ext l1 documents w with
      | (Ok docs, w') => ChatbotManager.process_files ext l2 docs w'
      | (Raise e, w') => (Raise e, w')
      end.
Proof.
  induction l1 as [|f l1 IH]; intros documents w; [reflexivity|].
  cbn [app ChatbotManager.process_files]. unfold bind.
  destruct (ChatbotManager.process_file ext f w) as [[docs | e] w'];
    [apply IH | reflexivity].
Qed.

End Facts.
End TempFacts.

(** X11. Both managers release every temporary file they write, also when
    a loader raises: in the events of [process_documents], whatever the
    batch and the collaborators, every file written is unlinked again
    and none stays open at the end; the session state itself is not
    touched. *)
Theorem process_documents_releases_temp_files :
  forall (ext : collaborators) (files : list UploadedFile) (w : world),
    (exists evs,
        snd (ChatbotManager.process_documents ext files w)
        = extend_trace w evs /\
        open_temp_files evs [] = []) /\
    (exists evs,
        snd (EnhancedChatbotManager.process_documents ext files w)
        = extend_trace w evs /\
        open_temp_files evs [] = []).
Proof.
  intros ext files w. split.
  - destruct (TempFacts.basic_process_documents_session ext files w)
      as [r [evs [E Hb]]].
    exists evs. rewrite E. split; [reflexivity | apply Hb].
  - destruct (TempFacts.enhanced_process_documents_session ext files w)
      as [r [evs [E Hb]]].
    exists evs. rewrite E. split; [reflexivity | apply Hb].
Qed.

Module BatchFacts.
Import Text RunFacts TempFacts.

Section Facts.
Variable ext : collaborators.

Lemma basic_process_file_ok (f : UploadedFile) (w : world) :
  basic_file_ok ext f = true ->
  exists docs w', ChatbotManager.process_file ext f w = (Ok docs, w').
Proof.
  unfold basic_file_ok. rewrite basic_process_file_run.
  destruct (basic_file_loader f) as [loader|].
  - destruct (loader_load ext loader f) as [docs | e]; [|discriminate].
    intros _. eexists; eexists; reflexivity.
  - intros _. eexists; eexists; reflexivity.
Qed.

Lemma basic_process_files_ok (files : list UploadedFile) :
  forall (documents : list Document) (w : world),
    forallb (basic_file_ok ext) files = true ->
    exists docs w',
      ChatbotManager.process_files ext files documents w = (Ok docs, w').
Proof.
  induction files as [|f files IH]; intros documents w H.
  - eexists; eexists; reflexivity.
  - cbn [forallb] in H. apply andb_true_iff in H as [Hf Hfiles].
    cbn [ChatbotManager.process_files]. unfold bind.
    destruct (basic_process_file_ok f w Hf) as [docs [w' E]]. rewrite E.
    now apply IH.
Qed.

End Facts.
End BatchFacts.

(** X12. In the basic manager the first loader that raises ends the
    batch: when the files before it are read without an exception,
    [process_documents] raises that exception after unlinking the
    temporary file; the documents read so far are dropped, no index is
    returned, and the files after it are not opened. *)
Theorem basic_batch_stops_at_first_failure :
  forall (ext : collaborators) (before after : list UploadedFile)
         (f : UploadedFile) (loader : Loader) (e : string) (w : world),
    forallb (basic_file_ok ext) before = true ->
    basic_file_loader f = Some loader ->
    loader_load ext loader f = Raise e ->
    exists docs w1,
      ChatbotManager.process_files ext before [] w = (Ok docs, w1) /\
      ChatbotManager.process_documents ext (before ++ f :: after) w
      = (Raise e,
         extend_trace w1
           [TempFileWrite (name f) ("." ++ Text.after_last "." (name f));
            LoaderLoad (name f); Unlink (name f)]).
Proof.
  intros ext before after f loader e w Hb Hl He.
  destruct (BatchFacts.basic_process_files_ok ext before [] w Hb)
    as [docs [w1 E]].
  exists docs, w1. split; [exact E|].
  unfold ChatbotManager.process_documents. unfold bind at 1.
  rewrite TempFacts.basic_process_files_app, E.
  cbn [ChatbotManager.process_files]. unfold bind at 1.
  rewrite TempFacts.basic_process_file_run, Hl, He. reflexivity.
Qed.

Lemma basic_batch_stops_witness :
  exists docs w1,
    ChatbotManager.process_files (pdf_loader_down "EOF marker not found")
      [mkUploadedFile "notes.txt" "hello"] [] fresh_session = (Ok docs, w1) /\
    ChatbotManager.process_documents (pdf_loader_down "EOF marker not found")
      ([mkUploadedFile "notes.txt" "hello"]
       ++ mkUploadedFile "broken.pdf" "%PDF"
          :: [mkUploadedFile "more.txt" "world"]) fresh_session
    = (Raise "EOF marker not found",
       extend_trace w1
         [TempFileWrite "broken.pdf" ("." ++ Text.after_last "." "broken.pdf");
          LoaderLoad "broken.pdf"; Unlink "broken.pdf"]).
Proof.
  exact (basic_batch_stops_at_first_failure
           (pdf_loader_down "EOF marker not found")
           [mkUploadedFile "notes.txt" "hello"]
           [mkUploadedFile "more.txt" "world"]
           (mkUploadedFile "broken.pdf" "%PDF") PyPDFLoader
           "EOF marker not found" fresh_session eq_refl eq_refl eq_refl).
Defined.

(** ** File names and loaders *)

Module NameFacts.
Import Py Text PyFacts.
Local Open Scope nat_scope.

Lemma length_append (a b : string) :
  String.length (a ++ b) = String.length a + String.length b.
Proof. induction a as [|c a IH]; simpl; [reflexivity | now rewrite IH]. Qed.

Lemma length_lower (s : string) : String.length (lower s) = String.length s.
Proof. induction s as [|c s IH]; simpl; [reflexivity | now rewrite IH]. Qed.

(** Two suffixes of one text that have the same length are equal. *)
Lemma app_inv_suffix (a : string) :
  forall b p q : string,
    a ++ p = b ++ q -> String.length p = String.length q -> p = q.
Proof.
  induction a as [|x a IH]; intros b p q E L.
  - destruct b as [|y b]; [exact E|].
    cbn [append] in E. rewrite E in L. cbn [String.length] in L.
    rewrite length_append in L. lia.
  - destruct b as [|y b].
    + cbn [append] in E. rewrite <- E in L. cbn [String.length] in L.
      rewrite length_append in L. lia.
    + cbn [append] in E. injection E as _ E. now apply (IH b).
Qed.

Lemma endswith_spec (s p : string) :
  endswith s p = true <-> exists a, s = a ++ p.
Proof.
  induction s as [|c s IH]; cbn [endswith].
  - rewrite orb_false_r. split.
    + intros H. apply String.eqb_eq in H. now exists "".
    + intros [a H]. destruct a; [|discriminate].
      cbn [append] in H. subst p. reflexivity.
  - rewrite orb_true_iff, IH. split.
    + intros [H | [a H]].
      * apply String.eqb_eq in H. now exists "".
      * exists (String c a). cbn [append]. now rewrite H.
    + intros [a H]. destruct a as [|x a]; cbn [append] in H.
      * left. subst p. apply String.eqb_refl.
      * right. injection H as _ H. now exists a.
Qed.

Lemma any_char_app (p : ascii -> bool) (a b : string) :
  any_char p (a ++ b) = any_char p a || any_char p b.
Proof.
  induction a as [|c a IH]; simpl; [reflexivity|].
  now rewrite IH, orb_assoc.
Qed.

Lemma dot_lower_char (c : ascii) :
  Ascii.eqb "." (lower_char c) = Ascii.eqb "." c.
Proof. destruct c as [[] [] [] [] [] [] [] []]; reflexivity. Qed.

Lemma dot_lower (s : string) :
  any_char (Ascii.eqb ".") (lower s) = any_char (Ascii.eqb ".") s.
Proof.
  induction s as [|c s IH]; cbn [lower any_char]; [reflexivity|].
  now rewrite dot_lower_char, IH.
Qed.

(** [split(sep)[-1]] of a text that ends with [sep] and a part free of
    [sep] is that part. *)
Lemma after_last_app (sep : ascii) (e : string) :
  any_char (Ascii.eqb sep) e = false ->
  forall base, after_last sep (base ++ String sep e) = e.
Proof.
  intros He base. induction base as [|c base IH]; cbn [append after_last].
  - now rewrite He, Ascii.eqb_refl.
  - rewrite any_char_app. cbn [any_char].
    rewrite Ascii.eqb_refl. cbn [orb]. rewrite orb_true_r. exact IH.
Qed.

Lemma enhanced_loader_of_name (base e content : string) (loader : Loader) :
  In (lower e, loader) extension_loaders ->
  file_loader (mkUploadedFile (base ++ "." ++ e) content) = Some loader.
Proof.
  intros H. unfold file_loader. cbn [name].
  assert (Hdot : any_char (Ascii.eqb ".") e = false).
  { rewrite <- dot_lower. simpl in H.
    destruct H as [H | [H | [H | []]]]; injection H as He _;
      rewrite <- He; reflexivity. }
  change (base ++ "." ++ e) with (base ++ String "." e).
  rewrite (after_last_app "." e Hdot).
  simpl in H.
  destruct H as [H | [H | [H | []]]]; injection H as He Hl;
    rewrite <- He, <- Hl; reflexivity.
Qed.

(** A name whose extension is, up to case, one of the three does not
    end with a dot and another spelling. *)
Lemma endswith_other_extension (base e x : string) :
  In (lower e) ["pdf"; "txt"; "docx"] ->
  In x ["pdf"; "txt"; "docx"] ->
  e <> x ->
  endswith (base ++ "." ++ e) ("." ++ x) = false.
Proof.
  intros H Hx Hne.
  destruct (endswith (base ++ "." ++ e) ("." ++ x)) eqn:E; [|reflexivity].
  exfalso. apply endswith_spec in E as [a E].
  pose proof (length_lower e) as Le.
  simpl in H, Hx.
  destruct H as [He | [He | [He | []]]];
    rewrite <- He in Le; cbn [String.length] in Le;
    destruct Hx as [<- | [<- | [<- | []]]];
    first
      [ (* the same length: the part after the dot is the extension *)
        assert (E' : "." ++ e = "." ++ _)
          by (apply (app_inv_suffix base a); [exact E|];
              cbn [append String.length]; lia);
        injection E' as E'; now apply Hne
      | (* a longer extension: its last characters hold the dot *)
        change (a ++ "." ++ "docx") with (a ++ String "." "docx") in E;
        assert (E' : String "." e = "docx")
          by (apply (app_inv_suffix base (a ++ ".")); [
                rewrite str_app_assoc; exact E
              | cbn [String.length]; lia]);
        discriminate E'
      | (* a shorter extension: the name part would hold its dot *)
        assert (E' : e = "." ++ _)
          by (apply (app_inv_suffix (base ++ ".") a); [
                rewrite str_app_assoc; exact E
              | cbn [append String.length]; lia]);
        subst e; simpl in He; discriminate He ].
Qed.

Lemma lower_in_extensions (e : string) (loader : Loader) :
  In (lower e, loader) extension_loaders ->
  In (lower e) ["pdf"; "txt"; "docx"].
Proof.
  intros H. simpl in H. simpl.
  destruct H as [H | [H | [H | []]]]; injection H as He _; tauto.
Qed.

(** An extension in capitals, or in mixed case: the basic manager has no
    loader for the file. *)
Lemma basic_loader_of_name (base e content : string) (loader : Loader) :
  In (lower e, loader) extension_loaders ->
  e <> lower e ->
  basic_file_loader (mkUploadedFile (base ++ "." ++ e) content) = None.
Proof.
  intros H Hne. unfold basic_file_loader. cbn [name].
  pose proof (lower_in_extensions e loader H) as Hin.
  assert (Hno : forall x, In x ["pdf"; "txt"; "docx"] ->
                          endswith (base ++ "." ++ e) ("." ++ x) = false).
  { intros x Hx. apply endswith_other_extension; try assumption.
    intros ->. apply Hne. simpl in Hx.
    destruct Hx as [<- | [<- | [<- | []]]]; reflexivity. }
  assert (H1 := Hno "pdf" ltac:(simpl; tauto)).
  assert (H2 := Hno "txt" ltac:(simpl; tauto)).
  assert (H3 := Hno "docx" ltac:(simpl; tauto)).
  change ("." ++ "pdf") with ".pdf" in H1.
  change ("." ++ "txt") with ".txt" in H2.
  change ("." ++ "docx") with ".docx" in H3.
  now rewrite H1, H2, H3.
Qed.

(** An extension in small letters: the basic manager picks the loader
    the enhanced one picks. *)
Lemma basic_loader_of_lowercase_name (base e content : string)
    (loader : Loader) :
  In (e, loader) extension_loaders ->
  basic_file_loader (mkUploadedFile (base ++ "." ++ e) content) = Some loader.
Proof.
  intros H. unfold basic_file_loader. cbn [name].
  assert (Hyes : endswith (base ++ "." ++ e) ("." ++ e) = true)
    by (apply endswith_spec; now exists base).
  assert (Hno : forall x, In x ["pdf"; "txt"; "docx"] -> e <> x ->
                          endswith (base ++ "." ++ e) ("." ++ x) = false).
  { intros x Hx Hne. apply endswith_other_extension; try assumption.
    simpl in H. simpl.
    destruct H as [H | [H | [H | []]]]; injection H as <- _; simpl; tauto. }
  simpl in H.
  destruct H as [H | [H | [H | []]]]; injection H as <- <-.
  - cbn [append] in *. now rewrite Hyes.
  - assert (H1 := Hno "pdf" ltac:(simpl; tauto) ltac:(discriminate)).
    cbn [append] in *. now rewrite H1, Hyes.
  - assert (H1 := Hno "pdf" ltac:(simpl; tauto) ltac:(discriminate)).
    assert (H2 := Hno "txt" ltac:(simpl; tauto) ltac:(discriminate)).
    cbn [append] in *. now rewrite H1, H2, Hyes.
Qed.

End NameFacts.

(** X13. The enhanced manager picks the loader by the lowercased text
    after the last dot of the file name, the basic manager by the end of
    the name as it is written: a file whose extension is pdf, txt or docx
    in small letters is read by the same loader in both (a failure of the
    loader escapes the basic manager and gives no index in the enhanced
    one), and a file whose extension has a capital letter is read by the
    enhanced manager and refused by the basic one with the warning
    Unsupported file type and no index. *)
Theorem extension_case_decides_loader :
  forall (ext : collaborators) (base e content : string) (loader : Loader)
         (w : world),
    In (Py.lower e, loader) extension_loaders ->
    let f := mkUploadedFile (base ++ "." ++ e) content in
    let indexed (documents : list Document) :=
      match documents with
      | [] => Ok None
      | _ :: _ =>
          match from_documents ext documents with
          | Ok vs => Ok (Some vs)
          | Raise e' => Raise e'
          end
      end in
    fst (EnhancedChatbotManager.process_documents ext [f] w)
    = match loader_load ext loader f with
      | Ok documents => indexed documents
      | Raise _ => Ok None
      end /\
    (e = Py.lower e ->
     fst (ChatbotManager.process_documents ext [f] w)
     = match loader_load ext loader f with
       | Ok documents => indexed documents
       | Raise e' => Raise e'
       end) /\
    (e <> Py.lower e ->
     fst (ChatbotManager.process_documents ext [f] w) = Ok None /\
     In (StWarning ("Unsupported file type: " ++ name f))
        (trace (snd (ChatbotManager.process_documents ext [f] w)))).
Proof.
  intros ext base e content loader w H f indexed.
  split; [|split].
  - unfold EnhancedChatbotManager.process_documents. unfold bind at 1.
    rewrite IngestFacts.enhanced_process_files_run.
    cbn [fst snd app flat_map]. unfold file_documents, file_errors.
    unfold f. rewrite (NameFacts.enhanced_loader_of_name base e content loader H).
    fold f. rewrite !app_nil_r.
    destruct (loader_load ext loader f) as [[|d ds] | e'];
      RunFacts.run; try reflexivity.
    cbn [indexed]. now destruct (from_documents ext (d :: ds)).
  - intros He. rewrite <- He in H.
    unfold ChatbotManager.process_documents. unfold bind at 1.
    cbn [ChatbotManager.process_files]. unfold bind at 1.
    rewrite TempFacts.basic_process_file_run. unfold f at 1.
    rewrite (NameFacts.basic_loader_of_lowercase_name base e content loader H).
    fold f. destruct (loader_load ext loader f) as [[|d ds] | e'];
      RunFacts.run; try reflexivity.
    cbn [indexed app]. now destruct (from_documents ext (d :: ds)).
  - intros Hne.
    assert (E : ChatbotManager.process_documents ext [f] w
                = (Ok None,
                   extend_trace w
                     [TempFileWrite (name f)
                        ("." ++ Text.after_last "." (name f));
                      StWarning ("Unsupported file type: " ++ name f);
                      Unlink (name f)])).
    { unfold ChatbotManager.process_documents. unfold bind at 1.
      cbn [ChatbotManager.process_files]. unfold bind at 1.
      rewrite TempFacts.basic_process_file_run. unfold f at 1.
      rewrite (NameFacts.basic_loader_of_name base e content loader H Hne).
      reflexivity. }
    rewrite E. cbn [fst snd trace extend_trace]. split; [reflexivity|].
    apply in_or_app. right. simpl. tauto.
Qed.

Lemma extension_case_witness :
  fst (EnhancedChatbotManager.process_documents (working "" "")
         [mkUploadedFile ("REPORT" ++ "." ++ "PDF") "text"] fresh_session)
  = Ok (Some (mkFAISS [mkDocument "text" (Some "/tmp/REPORT.PDF")])) /\
  fst (ChatbotManager.process_documents (working "" "")
         [mkUploadedFile ("REPORT" ++ "." ++ "PDF") "text"] fresh_session)
  = Ok None.
Proof.
  pose proof (extension_case_decides_loader (working "" "") "REPORT" "PDF"
                "text" PyPDFLoader fresh_session
                (or_introl eq_refl)) as H.
  cbv zeta in H. destruct H as [He [_ Hb]]. split.
  - exact He.
  - apply Hb. discriminate.
Defined.

(** ** Further properties of the answer pipelines *)

(** X14. The RAG pipeline of either manager turns a failure of the
    retriever or of the language model into the answer Error accessing
    documents followed by the text of the exception, and does not raise;
    after a failure of the retriever the model is not called.  The
    enhanced manager logs the error as well. *)
Theorem rag_failures_become_answers :
  forall (ext : collaborators) (query : string) (vs : FAISS)
         (chat_history : list message) (w : world),
    (forall e,
        retriever_invoke ext vs query = Raise e ->
        ChatbotManager.answer_with_rag ext query (Some vs) chat_history w
        = (Ok ("Error accessing documents: " ++ e),
           extend_trace w [RetrieverInvoke query]) /\
        EnhancedChatbotManager.answer_with_rag ext query (Some vs)
          chat_history w
        = (Ok ("Error accessing documents: " ++ e),
           extend_trace w [RetrieverInvoke query;
                           LogError ("RAG error: " ++ e)])) /\
    (forall docs e,
        retriever_invoke ext vs query = Ok docs ->
        llm_invoke ext (Text.rag_prompt docs query) = Raise e ->
        ChatbotManager.answer_with_rag ext query (Some vs) chat_history w
        = (Ok ("Error accessing documents: " ++ e),
           extend_trace w [RetrieverInvoke query;
                           LLMInvoke (Text.rag_prompt docs query)]) /\
        EnhancedChatbotManager.answer_with_rag ext query (Some vs)
          chat_history w
        = (Ok ("Error accessing documents: " ++ e),
           extend_trace w [RetrieverInvoke query;
                           LLMInvoke (Text.rag_prompt docs query);
                           LogError ("RAG error: " ++ e)])).
Proof.
  intros ext query vs chat_history w. split.
  - intros e Hr.
    unfold ChatbotManager.answer_with_rag,
      EnhancedChatbotManager.answer_with_rag.
    RunFacts.run. rewrite Hr.
    rewrite !RunFacts.log_event_extend, !RunFacts.extend_trace_app.
    split; reflexivity.
  - intros docs e Hr Hl.
    unfold ChatbotManager.answer_with_rag,
      EnhancedChatbotManager.answer_with_rag.
    RunFacts.run. rewrite Hr, Hl.
    rewrite !RunFacts.log_event_extend, !RunFacts.extend_trace_app.
    split; reflexivity.
Qed.

Module SourceFacts.
Import Py Text PyFacts.

Lemma str_app_nil_r (s : string) : s ++ "" = s.
Proof. induction s as [|c s IH]; simpl; [reflexivity | now rewrite IH]. Qed.

Lemma seen_source (s : string) (seen : list string) :
  In s seen -> existsb (String.eqb s) seen = true.
Proof.
  intros H. apply existsb_exists. exists s. split; [exact H|].
  apply String.eqb_refl.
Qed.

(** Documents of a source seen already add no line. *)
Lemma source_lines_seen (indent s : string) (docs : list Document) :
  (forall d, In d docs -> source_name d = s) ->
  forall (i : nat) (seen : list string),
    In s seen -> source_lines indent i seen docs = "".
Proof.
  induction docs as [|d docs IH]; intros Hall i seen Hs; [reflexivity|].
  cbn [source_lines]. rewrite (Hall d (or_introl eq_refl)).
  rewrite (seen_source s seen Hs).
  apply IH; [|exact Hs]. intros d' Hd'. apply Hall. now right.
Qed.

(** Documents of one source give one line, with the number of the
    first. *)
Lemma source_lines_one_source (indent s : string) (d : Document)
    (docs : list Document) (i : nat) :
  (forall d', In d' (d :: docs) -> source_name d' = s) ->
  source_lines indent i [] (d :: docs)
  = indent ++ str_of_nat i ++ ". " ++ s ++ nl.
Proof.
  intros Hall. cbn [source_lines existsb].
  rewrite (Hall d (or_introl eq_refl)).
  rewrite (source_lines_seen indent s docs); [|now intros d' Hd'; apply Hall; right | now left].
  now rewrite str_app_nil_r.
Qed.

End SourceFacts.

(** X15. The sources under a RAG answer are deduplicated: when the
    retrieved chunks, the first three of them, all come from one file,
    the answer of either manager is the reply of the model followed by
    the header and a single line, numbered 1, with the base name of that
    file. *)
Theorem rag_sources_are_deduplicated :
  forall (ext : collaborators) (query : string) (vs : FAISS)
         (chat_history : list message) (w : world)
         (d : Document) (docs : list Document) (content s : string),
    retriever_invoke ext vs query = Ok (d :: docs) ->
    llm_invoke ext (Text.rag_prompt (d :: docs) query) = Ok content ->
    (forall d', In d' (firstn 3 (d :: docs)) -> Text.source_name d' = s) ->
    fst (ChatbotManager.answer_with_rag ext query (Some vs) chat_history w)
    = Ok (content ++ Text.nl ++ Text.nl ++ "**Sources:**" ++ Text.nl
          ++ "1. " ++ s ++ Text.nl) /\
    fst (EnhancedChatbotManager.answer_with_rag ext query (Some vs)
           chat_history w)
    = Ok (content ++ Text.nl ++ Text.nl ++ "📚 **Sources:**" ++ Text.nl
          ++ "   1. " ++ s ++ Text.nl).
Proof.
  intros ext query vs chat_history w d docs content s Hr Hl Hall.
  unfold ChatbotManager.answer_with_rag,
    EnhancedChatbotManager.answer_with_rag.
  RunFacts.run. rewrite Hr, Hl. cbn [fst].
  change (firstn 3 (d :: docs)) with (d :: firstn 2 docs) in *.
  rewrite !(SourceFacts.source_lines_one_source _ s d (firstn 2 docs) 1 Hall).
  split; reflexivity.
Qed.

Lemma rag_sources_witness :
  fst (ChatbotManager.answer_with_rag (working "It says hello." "")
         "What does the document say?"
         (Some (mkFAISS [mkDocument "hello" (Some "/tmp/notes.txt");
                         mkDocument "world" (Some "/tmp/notes.txt")]))
         [] fresh_session)
  = Ok ("It says hello." ++ Text.nl ++ Text.nl ++ "**Sources:**" ++ Text.nl
        ++ "1. " ++ "notes.txt" ++ Text.nl).
Proof.
  refine (proj1 (rag_sources_are_deduplicated
                   (working "It says hello." "")
                   "What does the document say?"
                   (mkFAISS [mkDocument "hello" (Some "/tmp/notes.txt");
                             mkDocument "world" (Some "/tmp/notes.txt")])
                   [] fresh_session
                   (mkDocument "hello" (Some "/tmp/notes.txt"))
                   [mkDocument "world" (Some "/tmp/notes.txt")]
                   "It says hello." "notes.txt" eq_refl eq_refl _)).
  intros d' [<- | [<- | []]]; reflexivity.
Defined.

(** X16. In the web pipeline the [try] covers the synthesis call too:
    when the search succeeds and the language model raises on the
    synthesis prompt, both managers treat it as a failed web search.  The
    enhanced manager logs Web search error with the exception of the
    model and answers with its LLM pipeline on the query with the note
    appended; the basic manager calls the model again on the plain
    prompt and puts before the reply the notice Web search encountered
    an error with the exception of the model, and raises if that second
    call raises. *)
Theorem web_synthesis_failure_falls_back :
  forall (ext : collaborators) (query results e : string) (w : world),
    search_run ext query = Ok results ->
    (llm_invoke ext (EnhancedChatbotManager.synthesis_prompt query results)
     = Raise e ->
     let noted := query ++ EnhancedChatbotManager.web_unavailable_note in
     let prompt := Text.llm_prompt (chat_history w) noted in
     EnhancedChatbotManager.answer_with_web ext query w
     = (Ok (llm_answer (llm_invoke ext prompt)),
        extend_trace w
          ([SearchRun query;
            LLMInvoke (EnhancedChatbotManager.synthesis_prompt query results);
            LogError ("Web search error: " ++ e)]
           ++ llm_events prompt (llm_invoke ext prompt)))) /\
    (llm_invoke ext (ChatbotManager.synthesis_prompt query results)
     = Raise e ->
     let prompt := Text.llm_prompt (chat_history w) query in
     ChatbotManager.answer_with_web ext query w
     = (match llm_invoke ext prompt with
        | Ok reply => Ok (ChatbotManager.web_error_notice e ++ reply)
        | Raise e' => Raise e'
        end,
        extend_trace w
          [SearchRun query;
           LLMInvoke (ChatbotManager.synthesis_prompt query results);
           LLMInvoke prompt])).
Proof.
  intros ext query results e w Hs. split.
  - intros Hl noted prompt.
    unfold EnhancedChatbotManager.answer_with_web. RunFacts.run.
    rewrite Hs, Hl.
    rewrite EnhancedFacts.enhanced_answer_with_llm_run.
    rewrite !RunFacts.log_event_extend, !RunFacts.extend_trace_app.
    reflexivity.
  - intros Hl prompt.
    unfold ChatbotManager.answer_with_web. RunFacts.run.
    rewrite Hs, Hl.
    rewrite BasicFacts.basic_answer_with_llm_run.
    rewrite !RunFacts.log_event_extend, !RunFacts.extend_trace_app.
    cbn [chat_history extend_trace]. fold prompt.
    now destruct (llm_invoke ext prompt).
Qed.

Lemma web_synthesis_failure_witness :
  EnhancedChatbotManager.answer_with_web
    (synthesis_down "context length exceeded" "I do not know.")
    "Acme stock price today" fresh_session
  = (Ok "I do not know.",
     extend_trace fresh_session
       ([SearchRun "Acme stock price today";
         LLMInvoke (EnhancedChatbotManager.synthesis_prompt
                      "Acme stock price today" "Acme closed at 12.");
         LogError "Web search error: context length exceeded"]
        ++ [LLMInvoke
              (Text.llm_prompt []
                 ("Acme stock price today"
                  ++ EnhancedChatbotManager.web_unavailable_note))])).
Proof.
  exact (proj1 (web_synthesis_failure_falls_back
                  (synthesis_down "context length exceeded" "I do not know.")
                  "Acme stock price today" "Acme closed at 12."
                  "context length exceeded" fresh_session eq_refl)
               eq_refl).
Defined.

Module WindowFacts.
Import Text.

Lemma last_n_app {A} (n : nat) (older recent : list A) :
  List.length recent = n -> last_n n (older ++ recent) = recent.
Proof.
  intros H. unfold last_n. rewrite length_app, H.
  replace (List.length older + n - n)%nat with (List.length older + 0)%nat
    by lia.
  rewrite skipn_app, Nat.add_0_r, skipn_all.
  replace (List.length older - List.length older)%nat with 0%nat by lia.
  reflexivity.
Qed.

Lemma llm_prompt_last_n (messages1 messages2 : list message) (q : string) :
  last_n 12 messages1 = last_n 12 messages2 ->
  llm_prompt messages1 q = llm_prompt messages2 q.
Proof. intros H. unfold llm_prompt. now rewrite H. Qed.

End WindowFacts.

Module PromptFacts.
Import Py Text PyFacts.

Lemma str_in_within (x y z : string) :
  str_in x y = true -> str_in y z = true -> str_in x z = true.
Proof.
  intros Hxy Hyz. apply str_in_spec in Hxy as [a [b ->]].
  apply str_in_spec in Hyz as [c [d ->]].
  apply str_in_spec. exists (c ++ a), (b ++ d).
  now rewrite !str_app_assoc.
Qed.

Lemma str_in_suffix (a x : string) : str_in x (a ++ x) = true.
Proof.
  apply str_in_spec. exists a, "". now rewrite SourceFacts.str_app_nil_r.
Qed.

(** Each string that is joined occurs in the joined text. *)
Lemma str_in_concat_member (sep y : string) (l : list string) :
  In y l -> str_in y (String.concat sep l) = true.
Proof.
  induction l as [|x l IH]; intros H; [contradiction|].
  destruct l as [|x' l].
  - destruct H as [-> | []]. cbn [String.concat].
    apply str_in_spec. exists "", "". cbn [append].
    now rewrite SourceFacts.str_app_nil_r.
  - change (String.concat sep (x :: x' :: l))
      with (x ++ sep ++ String.concat sep (x' :: l)).
    destruct H as [-> | H].
    + apply str_in_spec. now exists "", (sep ++ String.concat sep (x' :: l)).
    + apply str_in_within with (String.concat sep (x' :: l)); [now apply IH|].
      rewrite <- str_app_assoc. apply str_in_suffix.
Qed.

End PromptFacts.

(** X17. The LLM pipeline shows the model the last twelve messages of the
    conversation, all of them and nothing older: with twelve recent
    messages, whatever older ones come before them, [answer_with_llm]
    calls the model once, with the prompt built from the twelve alone,
    and that prompt holds the line of each of the twelve (User: or
    Assistant: and the content) and the query.  The [chat_history]
    argument is not read: the messages are those of the session
    state. *)
Theorem llm_context_is_last_twelve_messages :
  forall (ext : collaborators) (query : string)
         (older recent arg : list message) (w : world),
    List.length recent = 12%nat ->
    chat_history w = (older ++ recent)%list ->
    let prompt := Text.llm_prompt recent query in
    ChatbotManager.answer_with_llm ext query arg w
    = (llm_invoke ext prompt, extend_trace w [LLMInvoke prompt]) /\
    EnhancedChatbotManager.answer_with_llm ext query arg w
    = (Ok (llm_answer (llm_invoke ext prompt)),
       extend_trace w (llm_events prompt (llm_invoke ext prompt))) /\
    (forall m, In m recent -> Py.str_in (Text.render m) prompt = true) /\
    Py.str_in query prompt = true.
Proof.
  intros ext query older recent arg w Hn Hw prompt.
  assert (Hp : Text.llm_prompt (chat_history w) query = prompt).
  { apply WindowFacts.llm_prompt_last_n. rewrite Hw.
    rewrite (WindowFacts.last_n_app 12 older recent Hn).
    symmetry. apply (WindowFacts.last_n_app 12 [] recent Hn). }
  assert (Hall : Text.last_n 12 recent = recent)
    by exact (WindowFacts.last_n_app 12 [] recent Hn).
  split; [|split; [|split]].
  - rewrite BasicFacts.basic_answer_with_llm_run. cbv zeta. now rewrite Hp.
  - rewrite EnhancedFacts.enhanced_answer_with_llm_run. cbv zeta.
    now rewrite Hp.
  - intros m Hm. unfold prompt, Text.llm_prompt.
    rewrite Hall.
    destruct recent as [|r0 rest]; [contradiction|].
    cbn [map].
    eapply PromptFacts.str_in_within;
      [| apply PromptFacts.str_in_concat_member;
         do 7 right; left; reflexivity].
    apply PromptFacts.str_in_concat_member.
    change (Text.render r0 :: map Text.render rest)
      with (map Text.render (r0 :: rest)).
    now apply in_map.
  - unfold prompt, Text.llm_prompt.
    rewrite Hall.
    destruct recent as [|r0 rest]; [discriminate|].
    cbn [map].
    eapply PromptFacts.str_in_within;
      [| apply PromptFacts.str_in_concat_member;
         do 9 right; left; reflexivity].
    apply PromptFacts.str_in_suffix.
Qed.

Lemma llm_context_witness :
  ChatbotManager.answer_with_llm echoing "And then?" []
    (mkWorld None (one_exchange ++ six_exchanges) (mkStats 0 0 0) 0 [])
  = (Ok (Text.llm_prompt six_exchanges "And then?"),
     extend_trace
       (mkWorld None (one_exchange ++ six_exchanges) (mkStats 0 0 0) 0 [])
       [LLMInvoke (Text.llm_prompt six_exchanges "And then?")]).
Proof.
  exact (proj1 (llm_context_is_last_twelve_messages
                  echoing "And then?" one_exchange six_exchanges []
                  (mkWorld None (one_exchange ++ six_exchanges)
                           (mkStats 0 0 0) 0 [])
                  eq_refl eq_refl)).
Defined.

(** ** The pages: invariants of the session state *)

Module PageFacts.
Import Text RunFacts.
Local Open Scope nat_scope.

(** Induction over a conversation, an exchange at a time. *)
Lemma whole_exchanges_ind (P : list message -> Prop) :
  P [] ->
  (forall q a rest, whole_exchanges rest = true -> P rest ->
                    P (HumanMessage q :: AIMessage a :: rest)) ->
  forall l, whole_exchanges l = true -> P l.
Proof.
  intros H0 Hstep l.
  assert (H : forall n l, List.length l <= n ->
                          whole_exchanges l = true -> P l).
  { clear l. induction n as [|n IH]; intros l Hn Hw.
    - destruct l; [exact H0 | simpl in Hn; lia].
    - destruct l as [|[q|a0] [|[q'|a] rest]]; try discriminate;
        [exact H0|].
      cbn [whole_exchanges] in Hw. apply Hstep; [exact Hw|].
      apply IH; [simpl in Hn; lia | exact Hw]. }
  apply (H (List.length l)). lia.
Qed.

Lemma whole_exchanges_app (l l' : list message) :
  whole_exchanges l = true -> whole_exchanges l' = true ->
  whole_exchanges (l ++ l') = true.
Proof.
  intros Hl Hl'. revert l Hl.
  apply whole_exchanges_ind; [exact Hl'|].
  intros q a rest _ IH. exact IH.
Qed.

(** Dropping a whole number of exchanges from the front leaves whole
    exchanges; so does keeping the last twelve messages. *)
Lemma whole_exchanges_skipn (k : nat) :
  forall l, whole_exchanges l = true ->
            whole_exchanges (skipn (2 * k) l) = true.
Proof.
  induction k as [|k IH]; intros l Hl; [exact Hl|].
  replace (2 * S k) with (S (S (2 * k))) by lia.
  destruct l as [|[q|a0] [|[q'|a] rest]]; try discriminate; [reflexivity|].
  cbn [skipn]. apply IH. exact Hl.
Qed.

Lemma whole_exchanges_even (l : list message) :
  whole_exchanges l = true -> exists k, List.length l = 2 * k.
Proof.
  revert l. apply whole_exchanges_ind.
  - now exists 0.
  - intros q a rest _ [k Hk]. exists (S k). simpl. lia.
Qed.

Lemma whole_exchanges_last_n (l : list message) :
  whole_exchanges l = true -> whole_exchanges (last_n 12 l) = true.
Proof.
  intros Hl. unfold last_n.
  destruct (whole_exchanges_even l Hl) as [k Hk]. rewrite Hk.
  replace (2 * k - 12) with (2 * (k - 6)) by lia.
  now apply whole_exchanges_skipn.
Qed.

Lemma basic_handle_keeps (a : BasicApp.action) (u : page_state) :
  basic_page_kept u -> basic_page_kept (snd (BasicApp.handle a u)).
Proof.
  intros [Hw Hl]. destruct a as [ext files | | ext prompt];
    cbn [BasicApp.handle].
  - unfold BasicApp.on_process_documents.
    destruct files as [|f files]; [exact (conj Hw Hl)|].
    destruct (TempFacts.basic_process_documents_session ext (f :: files)
                (session u)) as [r [evs [E _]]].
    rewrite E. destruct r as [vs | e]; exact (conj Hw Hl).
  - split; [reflexivity | simpl; lia].
  - unfold BasicApp.on_chat_input.
    destruct (String.eqb prompt ""); [exact (conj Hw Hl)|].
    destruct (BasicFacts.basic_process_query_run ext prompt (session u))
      as [evs E].
    cbv zeta in E. destruct E as [[ans E] | [e E]]; rewrite E; cbn [snd].
    + split.
      * cbn [session chat_history]. now apply whole_exchanges_app.
      * cbn [session chat_history messages]. rewrite !length_app.
        simpl. lia.
    + split; [exact Hw|].
      cbn [session chat_history extend_trace messages].
      rewrite length_app. simpl. lia.
Qed.

Lemma basic_run_keeps (actions : list BasicApp.action) :
  forall u, basic_page_kept u -> basic_page_kept (BasicApp.run actions u).
Proof.
  induction actions as [|a actions IH]; intros u Hu; [exact Hu|].
  cbn [BasicApp.run fold_left]. apply IH.
  now apply basic_handle_keeps.
Qed.

End PageFacts.

Module MainFacts.
Import Text RunFacts PageFacts.
Local Open Scope nat_scope.










End MainFacts.



(** X19. In the basic app, after any sequence of interactions from the
    initial session state, failed ones included, the conversation is made
    of whole exchanges and so are the last twelve messages taken as
    context; the page shows at least as many messages as the
    conversation holds, and can show more: a chat input whose model call
    raises leaves the user's message on the page and no turn in the
    conversation. *)
Theorem basic_page_invariants :
  (forall actions : list BasicApp.action,
      let u := BasicApp.run actions init_page in
      whole_exchanges (chat_history (session u)) = true /\
      whole_exchanges (Text.last_n 12 (chat_history (session u))) = true /\
      (List.length (chat_history (session u))
       <= List.length (messages u))%nat) /\
  (forall (e prompt : string) (u : page_state),
      prompt <> "" ->
      IntelligentRouter.route_query prompt
        (match vectorstore (session u) with Some _ => true | None => false end)
        (chat_history (session u)) = llm ->
      let u' := snd (BasicApp.on_chat_input (llm_down e) prompt u) in
      fst (BasicApp.on_chat_input (llm_down e) prompt u) = Raise e /\
      messages u' = (messages u ++ [mkDisplay user prompt None])%list /\
      chat_history (session u') = chat_history (session u)).
Proof.
  split.
  - intros actions u.
    assert (H : basic_page_kept u).
    { apply PageFacts.basic_run_keeps. split; [reflexivity | simpl; lia]. }
    destruct H as [Hw Hl]. repeat split; try assumption.
    now apply PageFacts.whole_exchanges_last_n.
  - intros e prompt u Hne Hr u'. unfold u'.
    unfold BasicApp.on_chat_input.
    destruct (String.eqb_spec prompt ""); [contradiction|].
    unfold ChatbotManager.process_query. RunFacts.run. rewrite Hr.
    rewrite BasicFacts.basic_answer_with_llm_run. cbv zeta.
    cbn [llm_invoke llm_down fst snd messages session chat_history
         extend_trace].
    now repeat split.
Qed.

(** X20. Processing documents replaces the index and the list of files:
    in the enhanced app, after the button has run without an exception
    the vector store is what [process_documents] returned for this batch
    alone and the list of processed files holds the names of all
    uploaded files; so a batch from which no document could be read
    leaves no index, whatever index was there before, while its files
    are listed.  The conversation and the messages on the page are not
    touched. *)
Theorem processing_documents_replaces_index :
  forall (ext : collaborators) (f : UploadedFile) (files : list UploadedFile)
         (u : page_state),
    let u' := snd (EnhancedApp.on_process_documents ext (f :: files) u) in
    (forall vs,
        fst (EnhancedChatbotManager.process_documents ext (f :: files)
               (session u)) = Ok vs ->
        vectorstore (session u') = vs /\
        processed_files u' = map name (f :: files)) /\
    (flat_map (file_documents ext) (f :: files) = [] ->
     vectorstore (session u') = None /\
     processed_files u' = map name (f :: files)) /\
    chat_history (session u') = chat_history (session u) /\
    messages u' = messages u.
Proof.
  intros ext f files u u'.
  destruct (TempFacts.enhanced_process_documents_session ext (f :: files)
              (session u)) as [r [evs [E _]]].
  assert (Hok : forall vs, r = Ok vs ->
                           vectorstore (session u') = vs /\
                           processed_files u' = map name (f :: files)).
  { intros vs ->. unfold u', EnhancedApp.on_process_documents.
    rewrite E. now split. }
  split; [|split; [|split]].
  - intros vs H. rewrite E in H. cbn [fst] in H. now apply Hok.
  - intros Hnone. apply Hok.
    pose proof (IngestFacts.enhanced_process_files_run ext (f :: files) [] []
                  (session u)) as Hrun.
    unfold EnhancedChatbotManager.process_documents in E.
    unfold bind at 1 in E. rewrite Hrun in E.
    cbn [fst snd app] in E. rewrite Hnone in E.
    destruct (flat_map (file_errors ext) (f :: files));
      RunFacts.run; cbv beta delta [bind ret emit] iota zeta in E;
      now injection E as <- _.
  - unfold u', EnhancedApp.on_process_documents. rewrite E.
    now destruct r.
  - unfold u', EnhancedApp.on_process_documents. rewrite E.
    now destruct r.
Qed.

(** X21. Without a vector store no query is answered from documents:
    the enhanced [process_query] returns a result whose route is not
    rag, and the basic one, when it returns, a route that is not rag. *)
Theorem no_index_no_rag_route :
  forall (ext : collaborators) (query : string) (w : world),
    vectorstore w = None ->
    (exists r w',
        EnhancedChatbotManager.process_query ext query w = (Ok r, w') /\
        result_route r <> Route rag) /\
    (forall r w',
        ChatbotManager.process_query ext query w = (Ok r, w') ->
        basic_route r <> rag).
Proof.
  intros ext query w Hvs. split.
  - destruct (EnhancedFacts.enhanced_process_query_total ext query w)
      as [a [evs E]].
    cbv zeta in E. rewrite Hvs in E.
    eexists; eexists. split; [exact E|].
    cbn [result_route]. intros H. injection H as H.
    apply RouterFacts.enhanced_rag_inv in H.
    apply RouterFacts.references_documents_inv in H. now destruct H.
  - intros r w' E.
    destruct (BasicFacts.basic_process_query_run ext query w) as [evs H].
    cbv zeta in H. rewrite Hvs in H.
    destruct H as [[a H] | [e H]]; rewrite H in E; [|discriminate].
    injection E as <- _. cbn [basic_route]. intros Hr.
    apply RouterFacts.basic_rag_inv in Hr.
    apply RouterFacts.references_documents_inv in Hr. now destruct Hr.
Qed.

Lemma no_index_no_rag_witness :
  exists r w',
    EnhancedChatbotManager.process_query (working "I have no documents." "")
      "Summarize the uploaded PDF" fresh_session = (Ok r, w') /\
    result_route r <> Route rag.
Proof.
  exact (proj1 (no_index_no_rag_route (working "I have no documents." "")
                  "Summarize the uploaded PDF" fresh_session eq_refl)).
Defined.

(** X22. A source is listed by its base name: for a document whose
    source is a directory, a slash and a name without a slash, the name;
    for a document without a source, Unknown. *)
Theorem source_is_listed_by_base_name :
  forall (text directory base : string),
    Py.any_char (Ascii.eqb "/") base = false ->
    Text.source_name (mkDocument text (Some (directory ++ "/" ++ base)))
    = base /\
    Text.source_name (mkDocument text None) = "Unknown".
Proof.
  intros text directory base H. split; [|reflexivity].
  unfold Text.source_name. cbn [source].
  change (directory ++ "/" ++ base) with (directory ++ String "/" base).
  now apply NameFacts.after_last_app.
Qed.

Lemma source_base_name_witness :
  Text.source_name (mkDocument "hello" (Some ("/tmp/uploads" ++ "/" ++ "notes.txt")))
  = "notes.txt" /\
  Text.source_name (mkDocument "hello" None) = "Unknown".
Proof.
  exact (source_is_listed_by_base_name "hello" "/tmp/uploads" "notes.txt"
           eq_refl).
Defined.
